(** * Lead search front end (script.js): model and verified properties

    The development follows the source file section by section: the
    JavaScript values and string methods the script relies on, the local
    spreadsheet search ([processLocalFile]), the page state and the two
    search handlers ([handleSearch], [handleRedrobSearch]), the table
    renderer and the three exports.

    Strings are sequences of 8-bit characters; [toLowerCase] acts on the
    ASCII letters.  Numbers are the integer-valued ones (counts, phone
    numbers), printed in decimal as JavaScript prints them. *)

From Stdlib Require Import String Ascii List Bool ZArith Lia DecimalString.
Import ListNotations.
Open Scope string_scope.

(* ================================================================= *)
(** ** String methods *)

Definition dquote : ascii := ascii_of_nat 34.
Definition comma : ascii := ascii_of_nat 44.
Definition newline : ascii := ascii_of_nat 10.

(** The string made of one character. *)
Definition str1 (c : ascii) : string := String c "".

Definition lowerChar (c : ascii) : ascii :=
  let n := nat_of_ascii c in
  if (65 <=? n)%nat && (n <=? 90)%nat then ascii_of_nat (n + 32) else c.

(** [s.toLowerCase()] *)
Fixpoint toLowerCase (s : string) : string :=
  match s with
  | EmptyString => EmptyString
  | String c s' => String (lowerChar c) (toLowerCase s')
  end.

(** [s.includes(t)]: [t] occurs in [s] as a contiguous substring. *)
Fixpoint includes (s t : string) : bool :=
  String.prefix t s ||
  match s with
  | EmptyString => false
  | String _ s' => includes s' t
  end.

(** [s.endsWith(t)] *)
Fixpoint endsWith (s t : string) : bool :=
  String.eqb s t ||
  match s with
  | EmptyString => false
  | String _ s' => endsWith s' t
  end.

(** [s.split(sep)] for a one-character separator: never the empty list. *)
Fixpoint split (sep : ascii) (s : string) : list string :=
  match s with
  | EmptyString => [EmptyString]
  | String c s' =>
      if Ascii.eqb c sep then EmptyString :: split sep s'
      else match split sep s' with
           | seg :: rest => String c seg :: rest
           | [] => [str1 c]
           end
  end.

(** [s.replace(/c/g, r)]: every occurrence of the character [c] becomes [r]. *)
Fixpoint replaceAll (c : ascii) (r : string) (s : string) : string :=
  match s with
  | EmptyString => EmptyString
  | String a s' =>
      if Ascii.eqb a c then r ++ replaceAll c r s'
      else String a (replaceAll c r s')
  end.

(** [l.join(sep)] *)
Definition join (sep : string) (l : list string) : string := String.concat sep l.

(** Truthiness of a string: every string but the empty one. *)
Definition truthyStr (s : string) : bool :=
  match s with
  | EmptyString => false
  | String _ _ => true
  end.

(** [a || b] on strings. *)
Definition orStr (a b : string) : string := if truthyStr a then a else b.

(* ================================================================= *)
(** ** JavaScript values and objects *)

(** The values of the model: undefined, null, booleans, integer-valued
    numbers and strings.  Arrays and nested objects, which a remote record
    may also hold, are outside the model. *)
Inductive JSValue : Type :=
  | JUndefined
  | JNull
  | JBool (b : bool)
  | JNum (n : Z)
  | JStr (s : string).

Definition truthy (v : JSValue) : bool :=
  match v with
  | JUndefined | JNull => false
  | JBool b => b
  | JNum n => negb (n =? 0)%Z
  | JStr s => truthyStr s
  end.

(** [a || b] on values. *)
Definition orVal (a b : JSValue) : JSValue := if truthy a then a else b.

(** [String(v)] *)
Definition ToString (v : JSValue) : string :=
  match v with
  | JUndefined => "undefined"
  | JNull => "null"
  | JBool true => "true"
  | JBool false => "false"
  | JNum n => NilZero.string_of_int (Z.to_int n)
  | JStr s => s
  end.

Definition isString (v : JSValue) : bool :=
  match v with
  | JStr _ => true
  | _ => false
  end.

(** An object is the list of its own properties in the order in which
    [Object.keys] enumerates them. *)
Definition JSObject : Type := list (string * JSValue).

Definition Object_keys (o : JSObject) : list string := map fst o.

(** [o[k]] for a string key: [undefined] when the object has no such property. *)
Definition getProp (o : JSObject) (k : string) : JSValue :=
  match find (fun kv => String.eqb (fst kv) k) o with
  | Some kv => snd kv
  | None => JUndefined
  end.

(** The property key a possibly-[undefined] value denotes: [o[undefined]]
    reads the property called "undefined". *)
Definition ToPropertyKey (k : option string) : string :=
  match k with
  | Some s => s
  | None => "undefined"
  end.

(* ================================================================= *)
(** ** Data model *)

(** A decoded spreadsheet row: header text to cell value. *)
Definition RawRow : Type := JSObject.

Record Criteria : Type := mkCriteria {
  name : string;
  location : string;
  technology : string
}.

(** The attachment as the script carries it. *)
Record FilePayload : Type := mkFilePayload {
  fileData : string;
  fileName : string;
  fileMimeType : string
}.

(** [{ ...{ name, location, technology }, ...filePayload }] *)
Record Payload : Type := mkPayload {
  criteria : Criteria;
  file : option FilePayload
}.

(** [payload.fileData], [undefined] without an attachment. *)
Definition payload_fileData (p : Payload) : JSValue :=
  match file p with
  | Some f => JStr (fileData f)
  | None => JUndefined
  end.

(* ================================================================= *)
(** ** The spreadsheet library *)

Module XLSX.

(** A sheet: the header keys of its first line and, for every further
    line, its cells ([None] for an empty cell). *)
Record Worksheet : Type := mkWorksheet {
  header : list string;
  body : list (list (option JSValue))
}.

Record Workbook : Type := mkWorkbook {
  SheetNames : list string;
  Sheets : list (string * Worksheet)
}.

(** [workbook.Sheets[name]] *)
Definition sheet (wb : Workbook) (k : string) : option Worksheet :=
  match find (fun kv => String.eqb (fst kv) k) (Sheets wb) with
  | Some kv => Some (snd kv)
  | None => None
  end.

(** One line of a sheet as a row record: the cell under each header key. *)
Fixpoint make_json_row (hdr : list string) (cells : list (option JSValue))
         (defval : option JSValue) : RawRow :=
  match hdr with
  | [] => []
  | h :: hdr' =>
      let c := match cells with [] => None | c :: _ => c end in
      let rest := make_json_row hdr' (tl cells) defval in
      match c, defval with
      | Some v, _ => (h, v) :: rest
      | None, Some d => (h, d) :: rest
      | None, None => rest
      end
  end.

(** Modelled from the spec: [XLSX.utils.sheet_to_json] of the SheetJS
    library, which is not part of the repository.  Each line of the sheet
    becomes one row record keyed by the header text; an empty cell decodes
    to the [defval] option when one is given and to a missing key
    otherwise; no sheet gives no rows. *)
Definition sheet_to_json (ws : option Worksheet) (defval : option JSValue)
  : list RawRow :=
  match ws with
  | None => []
  | Some w => map (fun cells => make_json_row (header w) cells defval) (body w)
  end.

(** The keys [ks] appended to the columns seen so far, without repeats. *)
Fixpoint addKeys (seen : list string) (ks : list string) : list string :=
  match ks with
  | [] => seen
  | k :: ks' =>
      if existsb (String.eqb k) seen then addKeys seen ks'
      else addKeys (seen ++ [k]) ks'
  end.

(** Modelled from the spec: [XLSX.utils.json_to_sheet] of the SheetJS
    library, which is not part of the repository: the sheet containing the
    given records as rows, with one column for every key a record has, in
    order of first appearance. *)
Definition json_to_sheet (data : list JSObject) : Worksheet :=
  let hdr := fold_left (fun seen o => addKeys seen (Object_keys o)) data [] in
  {| header := hdr;
     body := map (fun o =>
               map (fun k => if existsb (String.eqb k) (Object_keys o)
                             then Some (getProp o k) else None) hdr) data |}.

End XLSX.

(* ================================================================= *)
(** ** Local search: [processLocalFile] *)

(** [getValue] of the filter callback (lines 501-504). *)
Definition getValue (row : RawRow) (keyPrefix : string) : string :=
  match find (fun k => includes (toLowerCase k) keyPrefix) (Object_keys row) with
  | Some key =>
      if truthyStr key then toLowerCase (ToString (getProp row key)) else ""
  | None => ""
  end.

(** The callback of [jsonData.filter] (lines 499-524). *)
Definition filterRow (criteria : Criteria) (row : RawRow) : bool :=
  let rowName := getValue row "name" in
  let rowLocation := getValue row "location" in
  let rowTech := orStr (getValue row "tech") (getValue row "skill") in
  let searchName := toLowerCase (orStr (name criteria) "") in
  let searchLocation := toLowerCase (orStr (location criteria) "") in
  let searchTech := toLowerCase (orStr (technology criteria) "") in
  let matchName := negb (truthyStr searchName) || includes rowName searchName in
  let matchLocation :=
    negb (truthyStr searchLocation) || includes rowLocation searchLocation in
  let matchTech := negb (truthyStr searchTech) || includes rowTech searchTech in
  matchName && matchLocation && matchTech.

(** [findVal] of the map callback (lines 529-532). *)
Definition findVal (row : RawRow) (keyPart : string) : JSValue :=
  let key := find (fun k => includes (toLowerCase k) keyPart) (Object_keys row) in
  orVal (getProp row (ToPropertyKey key)) (JStr "").

(** The callback of [results.map] (lines 527-541): the record normalizer. *)
Definition mapRow (row : RawRow) : JSObject :=
  [ ("name", findVal row "name");
    ("location", orVal (findVal row "location") (findVal row "city"));
    ("technology", orVal (findVal row "tech") (findVal row "skill"));
    ("email", orVal (findVal row "email") (findVal row "mail"));
    ("phone", orVal (orVal (findVal row "phone") (findVal row "mobile"))
                    (findVal row "contact")) ].

(** [base64Data.split(',')[1] || base64Data] *)
Definition cleanBase64 (base64Data : string) : string :=
  match nth_error (split comma base64Data) 1 with
  | Some s => orStr s base64Data
  | None => base64Data
  end.

(** [processLocalFile], given the library's [XLSX.read] ([None] when it
    throws).  The result is [None] when the promise is rejected. *)
Definition processLocalFile (XLSX_read : string -> option XLSX.Workbook)
           (base64Data : string) (criteria : Criteria) : option (list JSObject) :=
  match XLSX_read (cleanBase64 base64Data) with
  | None => None
  | Some workbook =>
      let firstSheetName := nth_error (XLSX.SheetNames workbook) 0 in
      let worksheet := XLSX.sheet workbook (ToPropertyKey firstSheetName) in
      let jsonData := XLSX.sheet_to_json worksheet (Some (JStr "")) in
      let results := filter (filterRow criteria) jsonData in
      let mappedResults := map mapRow results in
      Some mappedResults
  end.

(* ================================================================= *)
(** ** Page state *)

(** A file chosen in the file input. *)
Record File : Type := mkFile {
  file_name : string;
  file_type : string;
  file_bytes : string
}.

(** The search button with its label, icon and spinner. *)
Record SearchBtn : Type := mkSearchBtn {
  disabled : bool;
  btnText : string;
  btnIconHidden : bool;
  spinnerHidden : bool
}.

(** The "no data" section: its heading, paragraph and the Redrob button. *)
Record NoDataSection : Type := mkNoDataSection {
  noDataHidden : bool;
  noDataTitle : string;
  noDataText : string;
  redrobSearchBtnHidden : bool
}.

Inductive Request : Type :=
  | TelemetryPost (name location technology : string) (file : option File)
  | JsonPost (url : string) (body : Payload).

Inductive Download : Type :=
  | CsvFile (filename content : string)
  | XlsxFile (filename : string) (workbook : XLSX.Workbook)
  | PdfFile (filename caption : string) (head : list string)
            (body : list (list JSValue)).

Record Page : Type := mkPage {
  searchBtn : SearchBtn;
  noDataSection : NoDataSection;
  resultsHidden : bool;
  loadingHidden : bool;
  resultsTableBody : list (list string);
  toasts : list (string * string);
  currentData : list JSObject;
  cachedFilePayload : option FilePayload;
  sessionStorage : option FilePayload;
  requests : list Request;
  downloads : list Download
}.

Definition with_searchBtn (b : SearchBtn) (p : Page) : Page :=
  mkPage b (noDataSection p) (resultsHidden p) (loadingHidden p)
         (resultsTableBody p) (toasts p) (currentData p) (cachedFilePayload p)
         (sessionStorage p) (requests p) (downloads p).

Definition with_noDataSection (n : NoDataSection) (p : Page) : Page :=
  mkPage (searchBtn p) n (resultsHidden p) (loadingHidden p)
         (resultsTableBody p) (toasts p) (currentData p) (cachedFilePayload p)
         (sessionStorage p) (requests p) (downloads p).

Definition with_resultsHidden (h : bool) (p : Page) : Page :=
  mkPage (searchBtn p) (noDataSection p) h (loadingHidden p)
         (resultsTableBody p) (toasts p) (currentData p) (cachedFilePayload p)
         (sessionStorage p) (requests p) (downloads p).

Definition with_loadingHidden (h : bool) (p : Page) : Page :=
  mkPage (searchBtn p) (noDataSection p) (resultsHidden p) h
         (resultsTableBody p) (toasts p) (currentData p) (cachedFilePayload p)
         (sessionStorage p) (requests p) (downloads p).

Definition with_resultsTableBody (t : list (list string)) (p : Page) : Page :=
  mkPage (searchBtn p) (noDataSection p) (resultsHidden p) (loadingHidden p)
         t (toasts p) (currentData p) (cachedFilePayload p)
         (sessionStorage p) (requests p) (downloads p).

Definition with_toasts (t : list (string * string)) (p : Page) : Page :=
  mkPage (searchBtn p) (noDataSection p) (resultsHidden p) (loadingHidden p)
         (resultsTableBody p) t (currentData p) (cachedFilePayload p)
         (sessionStorage p) (requests p) (downloads p).

Definition with_currentData (d : list JSObject) (p : Page) : Page :=
  mkPage (searchBtn p) (noDataSection p) (resultsHidden p) (loadingHidden p)
         (resultsTableBody p) (toasts p) d (cachedFilePayload p)
         (sessionStorage p) (requests p) (downloads p).

Definition with_cachedFilePayload (c : option FilePayload) (p : Page) : Page :=
  mkPage (searchBtn p) (noDataSection p) (resultsHidden p) (loadingHidden p)
         (resultsTableBody p) (toasts p) (currentData p) c
         (sessionStorage p) (requests p) (downloads p).

Definition with_sessionStorage (s : option FilePayload) (p : Page) : Page :=
  mkPage (searchBtn p) (noDataSection p) (resultsHidden p) (loadingHidden p)
         (resultsTableBody p) (toasts p) (currentData p) (cachedFilePayload p)
         s (requests p) (downloads p).

Definition with_requests (r : list Request) (p : Page) : Page :=
  mkPage (searchBtn p) (noDataSection p) (resultsHidden p) (loadingHidden p)
         (resultsTableBody p) (toasts p) (currentData p) (cachedFilePayload p)
         (sessionStorage p) r (downloads p).

Definition with_downloads (d : list Download) (p : Page) : Page :=
  mkPage (searchBtn p) (noDataSection p) (resultsHidden p) (loadingHidden p)
         (resultsTableBody p) (toasts p) (currentData p) (cachedFilePayload p)
         (sessionStorage p) (requests p) d.

(** What the page cannot decide by itself: the file reader, the session
    storage quota, the spreadsheet parser and the network.  An answer is a
    rejected call, a response that is not ok, or a JSON body that is null
    ([None]) or an array of records ([Some]); bodies of another shape (a
    string, an array holding null) are outside the model. *)
Inductive Response : Type :=
  | FetchRejected
  | NotOk (status : nat)
  | Json (data : option (list JSObject)).

Record Env : Type := mkEnv {
  toBase64 : File -> option string;
  storageAccepts : FilePayload -> bool;
  XLSX_read : string -> option XLSX.Workbook;
  fetchJson : string -> Payload -> Response
}.

(* ================================================================= *)
(** ** Constants *)

Definition SHEET_WEBHOOK : string := "https://telsleadsfinders.vercel.app/".
Definition REDROB_WEBHOOK : string := "YOUR_REDROB_WEBHOOK_URL_HERE".

(* ================================================================= *)
(** ** Page functions *)

Definition showNotification (message type : string) (p : Page) : Page :=
  with_toasts (toasts p ++ [(message, type)]) p.

(** The five replacements of [escapeHtml], in the order of the source. *)
Definition escapeChars (s : string) : string :=
  replaceAll "'" "&#039;"
    (replaceAll dquote "&quot;"
      (replaceAll ">" "&gt;"
        (replaceAll "<" "&lt;"
          (replaceAll "&" "&amp;" s)))).

Definition escapeHtml (text : JSValue) : string :=
  match text with
  | JNull | JUndefined => ""
  | _ => escapeChars (ToString text)
  end.

(** The cell [renderTable] writes for the field [field] of a record:
    [escapeHtml(row.field || '-')]. *)
Definition renderCell (row : JSObject) (field : string) : string :=
  escapeHtml (orVal (getProp row field) (JStr "-")).

(** The five cells [renderTable] writes for one record. *)
Definition renderRow (row : JSObject) : list string :=
  [ renderCell row "name"; renderCell row "location";
    renderCell row "technology"; renderCell row "email";
    renderCell row "phone" ].

Definition renderTable (data : list JSObject) (p : Page) : Page :=
  with_resultsHidden false
    (with_resultsTableBody (map renderRow data)
      (with_currentData data p)).

Definition showLoading (p : Page) : Page :=
  let p1 := with_searchBtn (mkSearchBtn true "Searching..." true false) p in
  if resultsHidden p1 then with_loadingHidden false p1 else p1.

Definition hideLoading (p : Page) : Page :=
  with_loadingHidden true
    (with_searchBtn (mkSearchBtn false "Search" false true) p).

Definition showNoData (p : Page) : Page :=
  with_noDataSection
    (mkNoDataSection false "No matching leads found"
       "We couldn't find any results in our sheets or your uploaded file."
       false) p.

Definition resetUI (p : Page) : Page :=
  with_currentData []
    (with_noDataSection
       (mkNoDataSection true (noDataTitle (noDataSection p))
          (noDataText (noDataSection p))
          (redrobSearchBtnHidden (noDataSection p)))
       (with_resultsHidden true p)).

Definition saveFileToStorage (env : Env) (payload : FilePayload) (p : Page) : Page :=
  if storageAccepts env payload
  then with_cachedFilePayload (Some payload)
         (with_sessionStorage (Some payload) p)
  else showNotification
         "File too large to save for refresh, but search will work." "error" p.

(** [searchData]: the request is sent; [None] when the call throws. *)
Definition searchData (env : Env) (url : string) (payload : Payload) (p : Page)
  : option (option (list JSObject)) * Page :=
  let p1 := with_requests (requests p ++ [JsonPost url payload]) p in
  match fetchJson env url payload with
  | FetchRejected => (None, p1)
  | NotOk _ => (None, p1)
  | Json data => (Some data, p1)
  end.

(** [data && data.length > 0] *)
Definition nonEmptyData (data : option (list JSObject)) : bool :=
  match data with
  | Some (_ :: _) => true
  | _ => false
  end.

Definition dataOrEmpty (data : option (list JSObject)) : list JSObject :=
  match data with
  | Some l => l
  | None => []
  end.

(* ================================================================= *)
(** ** Search handlers *)

(** [isExcelOrCsv] (lines 159-160). *)
Definition isExcelOrCsv (f : FilePayload) : bool :=
  let fileType := orStr (fileMimeType f) "" in
  includes fileType "sheet" || includes fileType "excel" ||
  includes fileType "csv" || endsWith (fileName f) ".csv" ||
  endsWith (fileName f) ".xlsx".

(** The validation test of line 120. *)
Definition nothingToSearch (payload : Payload) : bool :=
  negb (truthyStr (name (criteria payload))) &&
  negb (truthyStr (location (criteria payload))) &&
  negb (truthyStr (technology (criteria payload))) &&
  negb (truthy (payload_fileData payload)).

(** The body of the [try] of lines 153-179: [None] when it throws. *)
Definition runSearch (env : Env) (payload : Payload) (p : Page)
  : option (option (list JSObject)) * Page :=
  match file payload with
  | Some f =>
      if truthyStr (fileData f) then
        if isExcelOrCsv f then
          match processLocalFile (XLSX_read env) (fileData f) (criteria payload) with
          | Some data => (Some (Some data), p)
          | None => (None, p)
          end
        else searchData env SHEET_WEBHOOK payload p
      else searchData env SHEET_WEBHOOK payload p
  | None => searchData env SHEET_WEBHOOK payload p
  end.

(** [handleSearch] once the attachment, if any, has been read. *)
Definition submitSearch (env : Env) (form : Criteria) (files : option File)
           (filePayload : option FilePayload) (p : Page) : Page :=
  let payload := mkPayload form filePayload in
  if nothingToSearch payload then
    showNotification
      "Please enter at least one search criteria or upload a file." "error" p
  else
    let p1 :=
      with_requests
        (requests p ++
           [TelemetryPost (name form) (location form) (technology form) files]) p in
    let p2 := showLoading (resetUI p1) in
    match runSearch env payload p2 with
    | (Some data, p3) =>
        let p4 := hideLoading p3 in
        if nonEmptyData data then renderTable (dataOrEmpty data) p4
        else showNoData p4
    | (None, p3) =>
        showNotification "An error occurred while searching." "error"
          (hideLoading p3)
    end.

(** The attachment the first part of [handleSearch] (lines 88-115) settles
    on: the selected file once read, else the cached payload. *)
Definition attachment (env : Env) (files : option File) (p : Page)
  : option FilePayload :=
  match files with
  | Some f =>
      match toBase64 env f with
      | Some base64 => Some (mkFilePayload base64 (file_name f) (file_type f))
      | None => None
      end
  | None => cachedFilePayload p
  end.

(** [handleSearch]: [form] holds the values of the three inputs and
    [files] the first file of the file input, if one is selected. *)
Definition handleSearch (env : Env) (form : Criteria) (files : option File)
           (p : Page) : Page :=
  match files with
  | Some f =>
      match toBase64 env f with
      | Some base64 =>
          let filePayload := mkFilePayload base64 (file_name f) (file_type f) in
          submitSearch env form files (Some filePayload)
            (saveFileToStorage env filePayload p)
      | None => showNotification "Failed to process file" "error" p
      end
  | None => submitSearch env form files (cachedFilePayload p) p
  end.

(** [handleRedrobSearch] *)
Definition handleRedrobSearch (env : Env) (form : Criteria) (p : Page) : Page :=
  let payload := mkPayload form None in
  let p1 :=
    with_noDataSection
      (mkNoDataSection true (noDataTitle (noDataSection p))
         (noDataText (noDataSection p))
         (redrobSearchBtnHidden (noDataSection p))) p in
  let p2 := showLoading p1 in
  match searchData env REDROB_WEBHOOK payload p2 with
  | (Some data, p3) =>
      let p4 := hideLoading p3 in
      if nonEmptyData data then renderTable (dataOrEmpty data) p4
      else
        let p5 := showNoData (showNotification "No data found on Redrob either."
                                "error" p4) in
        with_noDataSection
          (mkNoDataSection (noDataHidden (noDataSection p5))
             "Still no results" "We checked Redrob too, but found nothing." true)
          p5
  | (None, p3) =>
      let p4 := hideLoading p3 in
      if String.eqb REDROB_WEBHOOK "YOUR_REDROB_WEBHOOK_URL_HERE"
      then showNotification
             "Error: Please replace Redrob Webhook URL in script.js." "error" p4
      else showNotification "Failed to search Redrob." "error" p4
  end.

(* ================================================================= *)
(** ** Export functions *)

Definition fields : list string :=
  ["name"; "location"; "technology"; "email"; "phone"].

(** A text wrapped in double quotes, its own double quotes doubled. *)
Definition csvQuote (s : string) : string :=
  str1 dquote ++ replaceAll dquote (String dquote (str1 dquote)) s ++ str1 dquote.

(** One quoted value of the delimited-text export (lines 565-569). *)
Definition csvValue (row : JSObject) (field : string) : string :=
  let val := orVal (getProp row field) (JStr "") in
  csvQuote (ToString val).

(** [csvString] of [downloadCSV]. *)
Definition csvString (data : list JSObject) : string :=
  let csvRows :=
    join "," fields ::
    map (fun row => join "," (map (csvValue row) fields)) data in
  join (str1 newline) csvRows.

(** [leads_export_<date>] with the extension; [iso] is [new Date().toISOString()]. *)
Definition exportName (iso ext : string) : string :=
  "leads_export_" ++ substring 0 10 iso ++ ext.

Definition downloadCSV (iso : string) (p : Page) : Page :=
  match currentData p with
  | [] => p
  | _ :: _ =>
      showNotification "CSV Downloaded" "success"
        (with_downloads
           (downloads p ++
              [CsvFile (exportName iso ".csv") (csvString (currentData p))])%list
           p)
  end.

Definition downloadExcel (iso : string) (p : Page) : Page :=
  match currentData p with
  | [] => p
  | _ :: _ =>
      let worksheet := XLSX.json_to_sheet (currentData p) in
      let workbook := XLSX.mkWorkbook ["Leads"] [("Leads", worksheet)] in
      showNotification "Excel Downloaded" "success"
        (with_downloads
           (downloads p ++ [XlsxFile (exportName iso ".xlsx") workbook])%list p)
  end.

(** [tableData] of [downloadPDF] (lines 606-612). *)
Definition tableData (data : list JSObject) : list (list JSValue) :=
  map (fun row =>
         [ getProp row "name"; getProp row "location"; getProp row "technology";
           getProp row "email"; getProp row "phone" ]) data.

Definition downloadPDF (iso : string) (p : Page) : Page :=
  match currentData p with
  | [] => p
  | _ :: _ =>
      showNotification "PDF Downloaded" "success"
        (with_downloads
           (downloads p ++
              [PdfFile (exportName iso ".pdf") "Leads Search Results"
                 ["Name"; "Location"; "Technology"; "Email"; "Phone"]
                 (tableData (currentData p))])%list p)
  end.

(* ================================================================= *)
(** ** Vocabulary of the specification *)

(** [t] occurs in [s]. *)
Definition contains (s t : string) : Prop := exists a b, s = a ++ t ++ b.

(** [s] ends with [t]. *)
Definition hasSuffix (s t : string) : Prop := exists a, s = a ++ t.

(** A file whose MIME type or name indicates a spreadsheet or CSV. *)
Definition spreadsheetLike (f : FilePayload) : Prop :=
  contains (fileMimeType f) "sheet" \/ contains (fileMimeType f) "excel" \/
  contains (fileMimeType f) "csv" \/ hasSuffix (fileName f) ".csv" \/
  hasSuffix (fileName f) ".xlsx".

Fixpoint noChar (c : ascii) (s : string) : bool :=
  match s with
  | EmptyString => true
  | String a s' => negb (Ascii.eqb a c) && noChar c s'
  end.

(** The header tokens of each canonical field (section 4.1). *)
Definition tokens (field : string) : list string :=
  if String.eqb field "name" then ["name"]
  else if String.eqb field "location" then ["location"; "city"]
  else if String.eqb field "technology" then ["tech"; "skill"]
  else if String.eqb field "email" then ["email"; "mail"]
  else if String.eqb field "phone" then ["phone"; "mobile"; "contact"]
  else [].

(** No header of the row contains one of the tokens of the field. *)
Definition noMatchingHeader (row : RawRow) (field : string) : bool :=
  forallb (fun t =>
             forallb (fun k => negb (includes (toLowerCase k) t))
                     (Object_keys row))
          (tokens field).

(** The row has a column called "undefined". *)
Definition hasUndefinedKey (row : RawRow) : bool :=
  existsb (String.eqb "undefined") (Object_keys row).


(** The text the delimited-text export writes for a field, before quoting. *)
Definition exportText (row : JSObject) (field : string) : string :=
  ToString (orVal (getProp row field) (JStr "")).

(** A reader of delimited text (RFC 4180): fields separated by commas,
    records by line feeds, a field optionally wrapped in double quotes with
    its own double quotes doubled. *)
Inductive CsvState : Type := FieldStart | Unquoted | Quoted | QuoteSeen.

Fixpoint parseFrom (st : CsvState) (cur : string) (row : list string)
         (rows : list (list string)) (input : string)
  : option (list (list string)) :=
  match input with
  | EmptyString =>
      match st with
      | Quoted => None
      | _ => Some (rows ++ [row ++ [cur]])%list
      end
  | String c rest =>
      match st with
      | FieldStart =>
          if Ascii.eqb c dquote then parseFrom Quoted "" row rows rest
          else if Ascii.eqb c comma
               then parseFrom FieldStart "" (row ++ [""])%list rows rest
          else if Ascii.eqb c newline
               then parseFrom FieldStart "" [] (rows ++ [row ++ [""]])%list rest
          else parseFrom Unquoted (str1 c) row rows rest
      | Unquoted =>
          if Ascii.eqb c comma
          then parseFrom FieldStart "" (row ++ [cur])%list rows rest
          else if Ascii.eqb c newline
               then parseFrom FieldStart "" [] (rows ++ [row ++ [cur]])%list rest
          else parseFrom Unquoted (cur ++ str1 c) row rows rest
      | Quoted =>
          if Ascii.eqb c dquote then parseFrom QuoteSeen cur row rows rest
          else parseFrom Quoted (cur ++ str1 c) row rows rest
      | QuoteSeen =>
          if Ascii.eqb c dquote
          then parseFrom Quoted (cur ++ str1 dquote) row rows rest
          else if Ascii.eqb c comma
               then parseFrom FieldStart "" (row ++ [cur])%list rows rest
          else if Ascii.eqb c newline
               then parseFrom FieldStart "" [] (rows ++ [row ++ [cur]])%list rest
          else None
      end
  end.

Definition parseCSV (text : string) : option (list (list string)) :=
  parseFrom FieldStart "" [] [] text.

(** A value that is the empty string or a truthy cell of the row. *)
Definition cellOrEmpty (row : RawRow) (v : JSValue) : Prop :=
  v = JStr "" \/ (truthy v = true /\ In v (map snd row)).

(** The comparison strings the filter derives from a row. *)
Definition rowName (row : RawRow) : string := getValue row "name".
Definition rowLocation (row : RawRow) : string := getValue row "location".
Definition rowTech (row : RawRow) : string :=
  orStr (getValue row "tech") (getValue row "skill").

(** A criterion matches a comparison string: it is empty, or its lower-case
    form occurs in the string. *)
Definition criterionMatches (criterion rowValue : string) : Prop :=
  criterion = "" \/ contains rowValue (toLowerCase criterion).

(** The environment with another spreadsheet parser. *)
Definition with_XLSX_read (read : string -> option XLSX.Workbook) (env : Env)
  : Env :=
  mkEnv (toBase64 env) (storageAccepts env) read (fetchJson env).

(** The request is addressed to the primary search endpoint. *)
Definition toPrimary (r : Request) : bool :=
  match r with
  | JsonPost url _ => String.eqb url SHEET_WEBHOOK
  | TelemetryPost _ _ _ _ => false
  end.

(** The shape of the exported text. *)

(** One line of quoted cells. *)
Definition quotedLine (cells : list string) : string :=
  join "," (map csvQuote cells).

(** The cells after the first of a line, each behind its comma. *)
Definition moreCells (cells : list string) : string :=
  String.concat "" (map (fun y => "," ++ csvQuote y) cells).

(** The lines after the first, each behind its line feed. *)
Definition moreLines (lines : list (list string)) : string :=
  String.concat "" (map (fun cells => String newline (quotedLine cells)) lines).

(* ================================================================= *)
(** ** Scenarios *)

(** The page as loaded: nothing searched, nothing attached. *)
Definition idlePage : Page :=
  mkPage (mkSearchBtn false "Search" false true)
         (mkNoDataSection true "No matching leads found"
            "We couldn't find any results in our sheets or your uploaded file."
            false)
         true true [] [] [] None None [] [].

(** Scenario B of the specification: a CSV file with the headers
    Full Name, City, Skillset and the single line Jane Doe, Austin, Go. *)
Definition janeFile : File :=
  mkFile "leads.csv" "text/csv"
         ("Full Name,City,Skillset" ++ str1 newline ++ "Jane Doe,Austin,Go").

Definition janeDataUri : string :=
  "data:text/csv;base64,RnVsbCBOYW1lLENpdHksU2tpbGxzZXQKSmFuZSBEb2UsQXVzdGluLEdv".

Definition janeSheet : XLSX.Worksheet :=
  XLSX.mkWorksheet
    ["Full Name"; "City"; "Skillset"]
    [[Some (JStr "Jane Doe"); Some (JStr "Austin"); Some (JStr "Go")]].

Definition janeRow : RawRow :=
  [("Full Name", JStr "Jane Doe"); ("City", JStr "Austin"); ("Skillset", JStr "Go")].

Definition janeWorkbook : XLSX.Workbook :=
  XLSX.mkWorkbook ["Sheet1"] [("Sheet1", janeSheet)].

Definition austinCriteria : Criteria := mkCriteria "" "austin" "".

(** An environment in which the file reader and the storage succeed, the
    parser decodes the file of scenario B and both endpoints answer with
    an empty array. *)
Definition janeEnv : Env :=
  mkEnv (fun _ => Some janeDataUri)
        (fun _ => true)
        (fun b =>
           if String.eqb b "RnVsbCBOYW1lLENpdHksU2tpbGxzZXQKSmFuZSBEb2UsQXVzdGluLEdv"
           then Some janeWorkbook else None)
        (fun _ _ => Json (Some [])).

(** A row whose only location column is called City. *)
Definition cityRow : RawRow := [("City", JStr "Austin")].

(** A row with a numeric phone column. *)
Definition phoneRow : RawRow := [("Phone", JNum 5551234); ("Notes", JStr "call")].

(** Two remote records that differ in a field the table does not show. *)
Definition extraA : JSObject := [("name", JStr "Ann"); ("id", JNum 7)].

(** A document that is not a spreadsheet. *)
Definition pdfPayload : FilePayload :=
  mkFilePayload "data:application/pdf;base64,JVBERi0xLjQ=" "cv.pdf"
                "application/pdf".

(** A spreadsheet payload the parser cannot read. *)
Definition brokenPayload : FilePayload :=
  mkFilePayload "data:text/csv;base64,AAAA" "broken.csv" "text/csv".

Definition brokenEnv : Env := with_XLSX_read (fun _ => None) janeEnv.

(** The data URI of an empty CSV file. *)
Definition emptyDataUri : string := "data:text/csv;base64,".

(** The location of the round-trip example and its exported form. *)
Definition chicagoLoop : string :=
  "Chicago, " ++ str1 dquote ++ "Loop" ++ str1 dquote.

Definition chicagoLoopQuoted : string :=
  str1 dquote ++ "Chicago, " ++ str1 dquote ++ str1 dquote ++ "Loop"
  ++ str1 dquote ++ str1 dquote ++ str1 dquote.

Definition isoNow : string := "2026-01-15T09:30:00.000Z".

(* ================================================================= *)
(** ** File selection and its persistence *)

(** The upload control: its label, the displayed file name, the two icons,
    the highlight of the drop zone and the remove button. *)
Record FileWidget : Type := mkFileWidget {
  fileLabelText : string;
  fileNameDisplay : string;
  fileNameHidden : bool;
  fileIconHidden : bool;
  fileSuccessIconHidden : bool;
  wrapperActive : bool;
  removeFileBtnHidden : bool
}.

(** The page together with the upload control and the first file of the
    file input, if any. *)
Record Session : Type := mkSession {
  page : Page;
  widget : FileWidget;
  fileInput : option File
}.

Definition updateFileUI (fileName : string) (w : FileWidget) : FileWidget :=
  mkFileWidget "File Selected" fileName false true false true false.

Definition clearFileStorage (p : Page) : Page := with_sessionStorage None p.

Definition removeFile (s : Session) : Session :=
  mkSession
    (clearFileStorage (with_cachedFilePayload None (page s)))
    (mkFileWidget "Click or Drag to Upload PDF, CSV, Excel" "" true false true
       false true)
    None.

Definition handleFileSelect (env : Env) (s : Session) : Session :=
  match fileInput s with
  | Some f =>
      let w := updateFileUI (file_name f) (widget s) in
      match toBase64 env f with
      | Some base64 =>
          let payload := mkFilePayload base64 (file_name f) (file_type f) in
          mkSession (saveFileToStorage env payload (page s)) w (fileInput s)
      | None => mkSession (page s) w (fileInput s)
      end
  | None => s
  end.

(** The stored item is the JSON text of the payload; parsing it gives the
    payload back. *)
Definition loadFileFromStorage (s : Session) : Session :=
  match sessionStorage (page s) with
  | Some saved =>
      mkSession (with_cachedFilePayload (Some saved) (page s))
                (updateFileUI (fileName saved) (widget s))
                (fileInput s)
  | None => s
  end.

Definition with_wrapperActive (a : bool) (w : FileWidget) : FileWidget :=
  mkFileWidget (fileLabelText w) (fileNameDisplay w) (fileNameHidden w)
               (fileIconHidden w) (fileSuccessIconHidden w) a
               (removeFileBtnHidden w).

(** The [dragover], [dragleave] and [drop] listeners of the drop zone
    (lines 52-69); [dropped] is the first of the dropped files. *)
Definition onDragOver (s : Session) : Session :=
  mkSession (page s) (with_wrapperActive true (widget s)) (fileInput s).

Definition onDragLeave (s : Session) : Session :=
  mkSession (page s) (with_wrapperActive false (widget s)) (fileInput s).

Definition onDrop (env : Env) (dropped : option File) (s : Session) : Session :=
  let s1 := mkSession (page s) (with_wrapperActive false (widget s)) (fileInput s) in
  match dropped with
  | Some f => handleFileSelect env (mkSession (page s1) (widget s1) (Some f))
  | None => s1
  end.

(** The [submit] listener of the form and the [click] listener of the
    Redrob button (lines 38-41). *)
Definition onSubmit (env : Env) (form : Criteria) (s : Session) : Session :=
  mkSession (handleSearch env form (fileInput s) (page s)) (widget s)
            (fileInput s).

Definition onRedrobClick (env : Env) (form : Criteria) (s : Session) : Session :=
  mkSession (handleRedrobSearch env form (page s)) (widget s) (fileInput s).

(* ================================================================= *)
(** ** Further vocabulary *)

(** What [escapeHtml] writes for one character. *)
Definition escapeChar (a : ascii) : string :=
  if Ascii.eqb a "&" then "&amp;"
  else if Ascii.eqb a "<" then "&lt;"
  else if Ascii.eqb a ">" then "&gt;"
  else if Ascii.eqb a dquote then "&quot;"
  else if Ascii.eqb a "'" then "&#039;"
  else str1 a.

(** The character an entity name stands for; an unknown name is left as
    written. *)
Definition entity (nm : string) : string :=
  if String.eqb nm "amp" then "&"
  else if String.eqb nm "lt" then "<"
  else if String.eqb nm "gt" then ">"
  else if String.eqb nm "quot" then str1 dquote
  else if String.eqb nm "#039" then "'"
  else "&" ++ nm ++ ";".

(** A reader of escaped text, as a browser reads the cell back: [pending]
    holds the entity name being read. *)
Fixpoint unescapeFrom (pending : option string) (s : string) : string :=
  match s with
  | EmptyString =>
      match pending with
      | None => ""
      | Some nm => "&" ++ nm
      end
  | String c rest =>
      match pending with
      | None =>
          if Ascii.eqb c "&" then unescapeFrom (Some "") rest
          else String c (unescapeFrom None rest)
      | Some nm =>
          if Ascii.eqb c ";" then entity nm ++ unescapeFrom None rest
          else unescapeFrom (Some (nm ++ str1 c)) rest
      end
  end.

Definition unescapeHtml (s : string) : string := unescapeFrom None s.

(** The search gets past the reading of the file and the validation. *)
Definition searchStarts (env : Env) (form : Criteria) (files : option File)
           (p : Page) : bool :=
  match files with
  | Some f =>
      match toBase64 env f with
      | Some base64 =>
          negb (nothingToSearch
                  (mkPayload form
                     (Some (mkFilePayload base64 (file_name f) (file_type f)))))
      | None => false
      end
  | None => negb (nothingToSearch (mkPayload form (cachedFilePayload p)))
  end.

(** The end of [handleSearch] (lines 172-184), from the outcome of the
    search. *)
Definition settleSearch (outcome : option (option (list JSObject)) * Page)
  : Page :=
  match outcome with
  | (Some data, p) =>
      if nonEmptyData data then renderTable (dataOrEmpty data) (hideLoading p)
      else showNoData (hideLoading p)
  | (None, p) =>
      showNotification "An error occurred while searching." "error"
        (hideLoading p)
  end.

(** The page once the selected file, if any, has been read and saved
    (lines 90-110). *)
Definition pageAfterAttach (env : Env) (files : option File) (p : Page) : Page :=
  match files with
  | Some f =>
      match toBase64 env f with
      | Some base64 =>
          saveFileToStorage env
            (mkFilePayload base64 (file_name f) (file_type f)) p
      | None => p
      end
  | None => p
  end.

(** The search goes to the primary endpoint: there is no attachment, or the
    attachment is not a spreadsheet. *)
Definition goesRemote (filePayload : option FilePayload) : bool :=
  match filePayload with
  | Some f => negb (truthyStr (fileData f) && isExcelOrCsv f)
  | None => true
  end.

(** The telemetry request of a submission. *)
Definition telemetryOf (form : Criteria) (files : option File) : Request :=
  TelemetryPost (name form) (location form) (technology form) files.

(** A row with two columns whose headers contain "name". *)
Definition twoNamesRow : RawRow :=
  [("City", JStr "Austin"); ("First Name", JStr "Jane");
   ("Last Name", JStr "Doe")].

(** The call failed: it was rejected or the response was not ok. *)
Definition failed (r : Response) : bool :=
  match r with
  | FetchRejected | NotOk _ => true
  | Json _ => false
  end.

(** The answer is the empty array or null. *)
Definition nothingFound (r : Response) : bool :=
  match r with
  | Json (Some []) | Json None => true
  | _ => false
  end.

(** The search is remote and the primary endpoint answers with a non-empty
    array, which [handleSearch] then renders. *)
Definition rendersRemote (env : Env) (form : Criteria)
           (filePayload : option FilePayload) : bool :=
  goesRemote filePayload &&
  match fetchJson env SHEET_WEBHOOK (mkPayload form filePayload) with
  | Json (Some (_ :: _)) => true
  | _ => false
  end.

(** The search button at rest. *)
Definition idleSearchBtn : SearchBtn := mkSearchBtn false "Search" false true.

(** The "no data" section as the first search shows it. *)
Definition firstNoData : NoDataSection :=
  mkNoDataSection false "No matching leads found"
    "We couldn't find any results in our sheets or your uploaded file." false.

(** The criteria [c'] ask no more than [c]: each criterion of [c'], in lower
    case, occurs in the lower-case form of the corresponding criterion of
    [c].  An empty criterion always does. *)
Definition looserCriteria (c' c : Criteria) : Prop :=
  contains (toLowerCase (name c)) (toLowerCase (name c')) /\
  contains (toLowerCase (location c)) (toLowerCase (location c')) /\
  contains (toLowerCase (technology c)) (toLowerCase (technology c')).

(** Two criteria records that differ by letter case at most. *)
Definition sameUpToCase (c c' : Criteria) : Prop :=
  toLowerCase (name c) = toLowerCase (name c') /\
  toLowerCase (location c) = toLowerCase (location c') /\
  toLowerCase (technology c) = toLowerCase (technology c').

(** The criteria in lower case. *)
Definition lowerCriteria (c : Criteria) : Criteria :=
  mkCriteria (toLowerCase (name c)) (toLowerCase (location c))
             (toLowerCase (technology c)).

(** A session in which a file was saved and the page then loaded anew. *)
Definition savedSession : Session :=
  mkSession (with_sessionStorage (Some pdfPayload) idlePage)
            (mkFileWidget "Click or Drag to Upload PDF, CSV, Excel" "" true
               false true false true)
            None.

(* ================================================================= *)
(** * Properties *)

(** ** Strings *)

Lemma append_nil_r (s : string) : s ++ "" = s.
Proof. induction s as [|c s IH]; simpl; [reflexivity | now rewrite IH]. Qed.

Lemma append_assoc (a b c : string) : (a ++ b) ++ c = a ++ (b ++ c).
Proof. induction a as [|x a IH]; simpl; [reflexivity | now rewrite IH]. Qed.

Lemma prefix_spec (t s : string) :
  String.prefix t s = true <-> exists b, s = t ++ b.
Proof.
  revert s; induction t as [|c t IH]; intros s.
  - split; [intros _; exists s; reflexivity | intros _; now destruct s].
  - destruct s as [|d s]; simpl.
    + split; [discriminate | intros [b Hb]; discriminate].
    + destruct (ascii_dec c d) as [->|Hcd].
      * rewrite IH. split; intros [b Hb]; exists b.
        -- now rewrite Hb.
        -- now inversion Hb.
      * split; [discriminate | intros [b Hb]; simpl in Hb; congruence].
Qed.

Lemma includes_spec (s t : string) : includes s t = true <-> contains s t.
Proof.
  unfold contains. induction s as [|c s IH].
  - cbn [includes]. rewrite orb_false_r, prefix_spec. split.
    + intros [b Hb]. exists "", b. exact Hb.
    + intros [a [b Hab]]. destruct a; [now exists b | discriminate].
  - cbn [includes]. rewrite orb_true_iff, prefix_spec, IH. split.
    + intros [[b Hb] | [a [b Hab]]].
      * exists "", b. exact Hb.
      * exists (String c a), b. simpl. now rewrite Hab.
    + intros [a [b Hab]]. destruct a as [|x a].
      * left. now exists b.
      * right. exists a, b. now inversion Hab.
Qed.

Lemma endsWith_spec (s t : string) : endsWith s t = true <-> hasSuffix s t.
Proof.
  unfold hasSuffix. induction s as [|c s IH].
  - cbn [endsWith]. rewrite orb_false_r, String.eqb_eq. split.
    + intros <-. now exists "".
    + intros [a Ha]. destruct a; [exact Ha | discriminate].
  - cbn [endsWith]. rewrite orb_true_iff, String.eqb_eq, IH. split.
    + intros [<- | [a Ha]].
      * now exists "".
      * exists (String c a). simpl. now rewrite Ha.
    + intros [a Ha]. destruct a as [|x a].
      * now left.
      * right. exists a. now inversion Ha.
Qed.

Lemma split_no_sep (c : ascii) (s : string) :
  noChar c s = true -> split c s = [s].
Proof.
  induction s as [|a s IH]; simpl; [reflexivity|].
  destruct (Ascii.eqb a c); simpl; [discriminate|].
  intros H. now rewrite IH.
Qed.

Lemma split_at_sep (c : ascii) (pre rest : string) :
  noChar c pre = true ->
  split c (pre ++ String c rest) = pre :: split c rest.
Proof.
  induction pre as [|a pre IH]; simpl.
  - now rewrite Ascii.eqb_refl.
  - destruct (Ascii.eqb a c); simpl; [discriminate|].
    intros H. now rewrite IH.
Qed.

Lemma truthyStr_true (s : string) : truthyStr s = true <-> s <> "".
Proof. destruct s; simpl; split; congruence. Qed.

Lemma truthyStr_false (s : string) : truthyStr s = false <-> s = "".
Proof. destruct s; simpl; split; congruence. Qed.

Lemma toLowerCase_empty (s : string) : toLowerCase s = "" <-> s = "".
Proof. destruct s; simpl; split; congruence. Qed.

(** ** The payload handed to the spreadsheet parser *)

Lemma cleanBase64_data_uri (pre payload : string) :
  noChar comma pre = true -> noChar comma payload = true -> payload <> "" ->
  cleanBase64 (pre ++ String comma payload) = payload.
Proof.
  intros Hpre Hpay Hne. unfold cleanBase64.
  rewrite (split_at_sep _ _ _ Hpre), (split_no_sep _ _ Hpay). simpl.
  unfold orStr. now destruct payload.
Qed.

Lemma cleanBase64_no_prefix (s : string) :
  noChar comma s = true -> cleanBase64 s = s.
Proof.
  intros H. unfold cleanBase64. now rewrite (split_no_sep _ _ H).
Qed.

(** ** Reading back the delimited text *)

Lemma join_cons (sep x : string) (l : list string) :
  join sep (x :: l) = x ++ String.concat "" (map (fun y => sep ++ y) l).
Proof.
  revert x; induction l as [|y l IH]; intros x.
  - simpl. now rewrite append_nil_r.
  - change (join sep (x :: y :: l)) with (x ++ sep ++ join sep (y :: l)).
    rewrite IH. destruct l as [|z l].
    + simpl. now rewrite !append_nil_r.
    + cbn [map String.concat]. now rewrite !append_assoc.
Qed.

Lemma concat_empty_cons (x : string) (l : list string) :
  String.concat "" (x :: l) = x ++ String.concat "" l.
Proof. destruct l; simpl; [now rewrite append_nil_r | reflexivity]. Qed.

Lemma parse_quoted_body (s : string) :
  forall cur row rows rest,
    parseFrom Quoted cur row rows
      (replaceAll dquote (String dquote (str1 dquote)) s ++ String dquote rest)
    = parseFrom QuoteSeen (cur ++ s) row rows rest.
Proof.
  induction s as [|a s IH]; intros cur row rows rest.
  - cbn. now rewrite append_nil_r.
  - cbn [replaceAll]. destruct (Ascii.eqb a dquote) eqn:E.
    + apply Ascii.eqb_eq in E. subst a.
      change (parseFrom Quoted (cur ++ str1 dquote) row rows
                (replaceAll dquote (String dquote (str1 dquote)) s
                 ++ String dquote rest)
              = parseFrom QuoteSeen (cur ++ String dquote s) row rows rest).
      rewrite IH, append_assoc. reflexivity.
    + cbn [append parseFrom]. rewrite E, IH, append_assoc. reflexivity.
Qed.

Lemma parse_quoted_cell (s : string) :
  forall row rows rest,
    parseFrom FieldStart "" row rows (csvQuote s ++ rest)
    = parseFrom QuoteSeen s row rows rest.
Proof.
  intros row rows rest. unfold csvQuote.
  rewrite !append_assoc.
  change (parseFrom Quoted "" row rows
            (replaceAll dquote (String dquote (str1 dquote)) s
             ++ String dquote rest)
          = parseFrom QuoteSeen s row rows rest).
  now rewrite parse_quoted_body.
Qed.

Lemma parse_more_cells_end (cells : list string) :
  forall c row rows,
    parseFrom QuoteSeen c row rows (moreCells cells)
    = Some (rows ++ [row ++ c :: cells])%list.
Proof.
  induction cells as [|x cells IH]; intros c row rows.
  - reflexivity.
  - unfold moreCells. cbn [map]. rewrite concat_empty_cons, append_assoc.
    change (parseFrom FieldStart "" (row ++ [c])%list rows
              (csvQuote x ++ moreCells cells)
            = Some (rows ++ [row ++ c :: x :: cells])%list).
    rewrite parse_quoted_cell, IH, <- app_assoc. reflexivity.
Qed.

Lemma parse_more_cells_line (cells : list string) :
  forall c row rows rest,
    parseFrom QuoteSeen c row rows (moreCells cells ++ String newline rest)
    = parseFrom FieldStart "" [] (rows ++ [row ++ c :: cells])%list rest.
Proof.
  induction cells as [|x cells IH]; intros c row rows rest.
  - reflexivity.
  - unfold moreCells. cbn [map]. rewrite concat_empty_cons, !append_assoc.
    change (parseFrom FieldStart "" (row ++ [c])%list rows
              (csvQuote x ++ moreCells cells ++ String newline rest)
            = parseFrom FieldStart "" [] (rows ++ [row ++ c :: x :: cells])%list rest).
    rewrite parse_quoted_cell, IH, <- app_assoc. reflexivity.
Qed.

Lemma quotedLine_cons (c : string) (cells : list string) :
  quotedLine (c :: cells) = csvQuote c ++ moreCells cells.
Proof.
  unfold quotedLine, moreCells. cbn [map]. rewrite join_cons, map_map.
  reflexivity.
Qed.

Lemma parse_more_lines (lines : list (list string)) :
  Forall (fun cells => cells <> []) lines ->
  forall cells c row rows,
    parseFrom QuoteSeen c row rows (moreCells cells ++ moreLines lines)
    = Some (rows ++ [row ++ c :: cells] ++ lines)%list.
Proof.
  induction 1 as [|l lines Hl _ IH]; intros cells c row rows.
  - unfold moreLines. cbn [map String.concat].
    now rewrite append_nil_r, parse_more_cells_end.
  - destruct l as [|x xs]; [congruence|].
    unfold moreLines. cbn [map]. rewrite concat_empty_cons.
    fold (moreLines lines).
    change (String newline (quotedLine (x :: xs)) ++ moreLines lines)
      with (String newline (quotedLine (x :: xs) ++ moreLines lines)).
    rewrite parse_more_cells_line, quotedLine_cons, append_assoc.
    rewrite parse_quoted_cell, IH. cbn [app].
    now rewrite <- app_assoc.
Qed.

Lemma parse_header_line (rest : string) :
  parseFrom FieldStart "" [] [] (join "," fields ++ String newline rest)
  = parseFrom FieldStart "" [] [fields] rest.
Proof. reflexivity. Qed.

Lemma csvString_lines (data : list JSObject) :
  csvString data
  = join "," fields
    ++ moreLines (map (fun row => map (exportText row) fields) data).
Proof.
  unfold csvString. rewrite join_cons. unfold moreLines.
  rewrite !map_map. reflexivity.
Qed.

Lemma parseCSV_csvString (d : JSObject) (data : list JSObject) :
  parseCSV (csvString (d :: data))
  = Some (fields :: map (fun row => map (exportText row) fields) (d :: data)).
Proof.
  unfold parseCSV. rewrite csvString_lines. cbn [map].
  unfold moreLines at 1. cbn [map]. rewrite concat_empty_cons.
  fold (moreLines (map (fun row => map (exportText row) fields) data)).
  change (String newline (quotedLine (map (exportText d) fields))
          ++ moreLines (map (fun row => map (exportText row) fields) data))
    with (String newline
            (quotedLine (map (exportText d) fields)
             ++ moreLines (map (fun row => map (exportText row) fields) data))).
  rewrite parse_header_line.
  change (map (exportText d) fields)
    with (exportText d "name" :: map (exportText d) (tl fields)).
  rewrite quotedLine_cons, append_assoc, parse_quoted_cell.
  rewrite parse_more_lines; [reflexivity|].
  apply Forall_forall. intros cells Hin.
  apply in_map_iff in Hin. destruct Hin as [row [<- _]]. discriminate.
Qed.

Lemma csvQuote_injective (s t : string) : csvQuote s = csvQuote t -> s = t.
Proof.
  intros H.
  assert (Hs : parseFrom FieldStart "" [] [] (csvQuote s ++ "") = Some [[s]])
    by (now rewrite parse_quoted_cell).
  assert (Ht : parseFrom FieldStart "" [] [] (csvQuote t ++ "") = Some [[t]])
    by (now rewrite parse_quoted_cell).
  rewrite H in Hs. congruence.
Qed.

(** ** The record normalizer *)

Lemma getProp_truthy_in (row : JSObject) (k : string) :
  truthy (getProp row k) = true -> In (getProp row k) (map snd row).
Proof.
  unfold getProp. destruct (find _ row) as [kv|] eqn:E; [|discriminate].
  intros _. apply find_some in E. apply in_map. tauto.
Qed.

Lemma findVal_cellOrEmpty (row : RawRow) (keyPart : string) :
  cellOrEmpty row (findVal row keyPart).
Proof.
  unfold findVal, orVal, cellOrEmpty.
  destruct (truthy (getProp row _)) eqn:E; [right | now left].
  split; [exact E | now apply getProp_truthy_in].
Qed.

Lemma orVal_cellOrEmpty (row : RawRow) (a b : JSValue) :
  cellOrEmpty row a -> cellOrEmpty row b -> cellOrEmpty row (orVal a b).
Proof. unfold orVal. now destruct (truthy a). Qed.

Lemma cellOrEmpty_defined (row : RawRow) (v : JSValue) :
  cellOrEmpty row v -> v <> JUndefined /\ v <> JNull.
Proof.
  intros [-> | [Ht _]]; [split; discriminate|].
  destruct v; simpl in Ht; split; congruence.
Qed.

Lemma find_none_forallb {A : Type} (f : A -> bool) (l : list A) :
  forallb (fun x => negb (f x)) l = true -> find f l = None.
Proof.
  induction l as [|x l IH]; simpl; [reflexivity|].
  destruct (f x); simpl; [discriminate | exact IH].
Qed.

Lemma getProp_absent (row : JSObject) (k : string) :
  existsb (String.eqb k) (Object_keys row) = false -> getProp row k = JUndefined.
Proof.
  unfold getProp, Object_keys.
  induction row as [|[k' v] row IH]; simpl; [reflexivity|].
  rewrite (String.eqb_sym k' k). destruct (String.eqb k k'); simpl;
    [discriminate | exact IH].
Qed.

Lemma findVal_no_match (row : RawRow) (keyPart : string) :
  forallb (fun k => negb (includes (toLowerCase k) keyPart)) (Object_keys row)
  = true ->
  hasUndefinedKey row = false ->
  findVal row keyPart = JStr "".
Proof.
  intros Hnone Hundef. unfold findVal.
  rewrite (find_none_forallb _ _ Hnone). cbn [ToPropertyKey].
  now rewrite (getProp_absent _ _ Hundef).
Qed.

Lemma mapRow_keys (row : RawRow) : Object_keys (mapRow row) = fields.
Proof. reflexivity. Qed.

Lemma mapRow_name (row : RawRow) :
  getProp (mapRow row) "name" = findVal row "name".
Proof. reflexivity. Qed.

Lemma mapRow_location (row : RawRow) :
  getProp (mapRow row) "location"
  = orVal (findVal row "location") (findVal row "city").
Proof. reflexivity. Qed.

Lemma mapRow_technology (row : RawRow) :
  getProp (mapRow row) "technology"
  = orVal (findVal row "tech") (findVal row "skill").
Proof. reflexivity. Qed.

Lemma mapRow_email (row : RawRow) :
  getProp (mapRow row) "email"
  = orVal (findVal row "email") (findVal row "mail").
Proof. reflexivity. Qed.

Lemma mapRow_phone (row : RawRow) :
  getProp (mapRow row) "phone"
  = orVal (orVal (findVal row "phone") (findVal row "mobile"))
          (findVal row "contact").
Proof. reflexivity. Qed.

Ltac each_field H :=
  cbn in H; destruct H as [<-|[<-|[<-|[<-|[<-|[]]]]]];
  [ rewrite mapRow_name | rewrite mapRow_location | rewrite mapRow_technology
  | rewrite mapRow_email | rewrite mapRow_phone ].

Lemma mapRow_cellOrEmpty (row : RawRow) (f : string) :
  In f fields -> cellOrEmpty row (getProp (mapRow row) f).
Proof.
  intros Hf. each_field Hf;
    repeat first [apply findVal_cellOrEmpty | apply orVal_cellOrEmpty].
Qed.

Lemma mapRow_no_match (row : RawRow) (f : string) :
  In f fields -> noMatchingHeader row f = true -> hasUndefinedKey row = false ->
  getProp (mapRow row) f = JStr "".
Proof.
  intros Hf Hno Hundef. unfold noMatchingHeader in Hno.
  each_field Hf; cbn [tokens String.eqb Ascii.eqb Bool.eqb forallb] in Hno;
    repeat (apply andb_true_iff in Hno; destruct Hno as [? Hno]);
    repeat (rewrite findVal_no_match by assumption);
    reflexivity.
Qed.

(** ** The criteria filter *)

Lemma orStr_empty_r (s : string) : orStr s "" = s.
Proof. now destruct s. Qed.

Lemma match_flag_spec (criterion rowValue : string) :
  negb (truthyStr (toLowerCase (orStr criterion "")))
  || includes rowValue (toLowerCase (orStr criterion "")) = true
  <-> criterionMatches criterion rowValue.
Proof.
  unfold criterionMatches.
  rewrite orStr_empty_r, orb_true_iff, negb_true_iff, truthyStr_false,
    toLowerCase_empty, includes_spec.
  reflexivity.
Qed.

(** What the filter decides, in terms of the comparison strings it derives
    itself: every criterion is empty or occurs, in lower case, in its
    comparison string. *)
Lemma filterRow_spec (c : Criteria) (row : RawRow) :
  filterRow c row = true <->
  criterionMatches (name c) (rowName row) /\
  criterionMatches (location c) (rowLocation row) /\
  criterionMatches (technology c) (rowTech row).
Proof.
  unfold filterRow. cbv zeta.
  rewrite !andb_true_iff, !match_flag_spec.
  unfold rowName, rowLocation, rowTech. tauto.
Qed.

(** ** The search handlers *)

Lemma nothingToSearch_attached (form : Criteria) (fp : FilePayload) :
  truthyStr (fileData fp) = true ->
  nothingToSearch (mkPayload form (Some fp)) = false.
Proof.
  intros H. unfold nothingToSearch. cbn. rewrite H. now rewrite !andb_false_r.
Qed.

Lemma submitSearch_local (env : Env) (form : Criteria) (files : option File)
      (fp : FilePayload) (p : Page) :
  truthyStr (fileData fp) = true -> isExcelOrCsv fp = true ->
  requests (submitSearch env form files (Some fp) p)
  = (requests p
       ++ [TelemetryPost (name form) (location form) (technology form) files])%list
  /\ currentData (submitSearch env form files (Some fp) p)
     = dataOrEmpty (processLocalFile (XLSX_read env) (fileData fp) form).
Proof.
  intros Ht Hx. unfold submitSearch.
  rewrite (nothingToSearch_attached _ _ Ht).
  unfold runSearch. cbn [file criteria]. rewrite Ht, Hx.
  destruct (processLocalFile _ _ _) as [[|d data]|];
    cbn; unfold showLoading; cbn; split; reflexivity.
Qed.

Lemma submitSearch_remote (env : Env) (form : Criteria) (files : option File)
      (fp : FilePayload) (p : Page) :
  truthyStr (fileData fp) = true -> isExcelOrCsv fp = false ->
  requests (submitSearch env form files (Some fp) p)
  = (requests p
       ++ [TelemetryPost (name form) (location form) (technology form) files;
           JsonPost SHEET_WEBHOOK (mkPayload form (Some fp))])%list.
Proof.
  intros Ht Hx. unfold submitSearch.
  rewrite (nothingToSearch_attached _ _ Ht).
  unfold runSearch, searchData. cbn [file criteria]. rewrite Ht, Hx.
  destruct (fetchJson env _ _) as [| |[[|d data]|]];
    cbn; unfold showLoading; cbn; now rewrite <- app_assoc.
Qed.

Lemma submitSearch_remote_reader (env : Env) (form : Criteria)
      (files : option File) (fp : FilePayload) (p : Page)
      (read : string -> option XLSX.Workbook) :
  truthyStr (fileData fp) = true -> isExcelOrCsv fp = false ->
  submitSearch (with_XLSX_read read env) form files (Some fp) p
  = submitSearch env form files (Some fp) p.
Proof.
  intros Ht Hx. unfold submitSearch.
  rewrite (nothingToSearch_attached _ _ Ht).
  unfold runSearch. cbn [file criteria]. rewrite Ht, Hx. reflexivity.
Qed.

Lemma saveFileToStorage_page (env : Env) (fp : FilePayload) (p : Page) :
  requests (saveFileToStorage env fp p) = requests p /\
  resultsTableBody (saveFileToStorage env fp p) = resultsTableBody p /\
  exists extra, toasts (saveFileToStorage env fp p) = (toasts p ++ extra)%list.
Proof.
  unfold saveFileToStorage. destruct (storageAccepts env fp); cbn.
  - repeat split. exists []. now rewrite app_nil_r.
  - repeat split. eexists. reflexivity.
Qed.

Lemma handleSearch_attached (env : Env) (form : Criteria) (files : option File)
      (p : Page) (fp : FilePayload) :
  attachment env files p = Some fp ->
  exists p0,
    handleSearch env form files p = submitSearch env form files (Some fp) p0 /\
    requests p0 = requests p /\
    resultsTableBody p0 = resultsTableBody p /\
    exists extra, toasts p0 = (toasts p ++ extra)%list.
Proof.
  unfold attachment, handleSearch. destruct files as [f|].
  - destruct (toBase64 env f) as [b|]; [|discriminate].
    intros [= <-]. eexists. split; [reflexivity|].
    apply saveFileToStorage_page.
  - intros ->. exists p. repeat split. exists []. now rewrite app_nil_r.
Qed.

Lemma isExcelOrCsv_spec (fp : FilePayload) :
  isExcelOrCsv fp = true <-> spreadsheetLike fp.
Proof.
  unfold isExcelOrCsv, spreadsheetLike. cbv zeta.
  rewrite orStr_empty_r, !orb_true_iff, !includes_spec, !endsWith_spec.
  tauto.
Qed.

Lemma handleSearch_remote_reader (env : Env) (form : Criteria)
      (files : option File) (p : Page) (fp : FilePayload)
      (read : string -> option XLSX.Workbook) :
  attachment env files p = Some fp ->
  truthyStr (fileData fp) = true -> isExcelOrCsv fp = false ->
  handleSearch (with_XLSX_read read env) form files p
  = handleSearch env form files p.
Proof.
  unfold attachment, handleSearch. intros Ha Ht Hx.
  destruct files as [f|]; cbn [toBase64 with_XLSX_read].
  - destruct (toBase64 env f) as [b|]; [|discriminate].
    injection Ha as <-. now apply submitSearch_remote_reader.
  - rewrite Ha. now apply submitSearch_remote_reader.
Qed.

(* ================================================================= *)
(** * Validation and routing *)

(** C4. When the three criteria are empty and there is no attachment
    (no selected file, no cached payload), [handleSearch] only shows the
    error notification: the page is otherwise unchanged and no request is
    sent, neither to the primary endpoint nor to the telemetry one. *)
Theorem empty_submission_rejected (env : Env) (form : Criteria) (p : Page) :
  name form = "" -> location form = "" -> technology form = "" ->
  cachedFilePayload p = None ->
  handleSearch env form None p
  = showNotification
      "Please enter at least one search criteria or upload a file." "error" p
  /\ requests (handleSearch env form None p) = requests p
  /\ toasts (handleSearch env form None p)
     = (toasts p
          ++ [("Please enter at least one search criteria or upload a file.",
               "error")])%list.
Proof.
  intros Hn Hl Ht Hc.
  assert (E : handleSearch env form None p
              = showNotification
                  "Please enter at least one search criteria or upload a file."
                  "error" p).
  { unfold handleSearch, submitSearch, nothingToSearch. rewrite Hc. cbn.
    now rewrite Hn, Hl, Ht. }
  rewrite E. repeat split.
Qed.

Lemma empty_submission_rejected_witness :
  name (mkCriteria "" "" "") = "" /\
  cachedFilePayload idlePage = None /\
  requests (handleSearch janeEnv (mkCriteria "" "" "") None idlePage) = [].
Proof.
  split; [reflexivity | split; [reflexivity|]].
  apply (empty_submission_rejected janeEnv (mkCriteria "" "" "") idlePage);
    reflexivity.
Defined.

(** C5. With an attachment present, [handleSearch] searches locally exactly
    when the MIME type contains "sheet", "excel" or "csv" or the file name
    ends in ".csv" or ".xlsx": then the only request is the telemetry one
    (nothing goes to the primary endpoint) and the results are those of
    [processLocalFile].  Otherwise the payload, attachment included, is
    posted to the primary endpoint and the spreadsheet parser plays no part. *)
Theorem attachment_routing (env : Env) (form : Criteria) (files : option File)
        (p : Page) (fp : FilePayload) :
  attachment env files p = Some fp ->
  fileData fp <> "" ->
  (isExcelOrCsv fp = true <-> spreadsheetLike fp) /\
  (isExcelOrCsv fp = true ->
     requests (handleSearch env form files p)
     = (requests p
          ++ [TelemetryPost (name form) (location form) (technology form) files])%list
     /\ currentData (handleSearch env form files p)
        = dataOrEmpty (processLocalFile (XLSX_read env) (fileData fp) form)) /\
  (isExcelOrCsv fp = false ->
     requests (handleSearch env form files p)
     = (requests p
          ++ [TelemetryPost (name form) (location form) (technology form) files;
              JsonPost SHEET_WEBHOOK (mkPayload form (Some fp))])%list
     /\ forall read,
          handleSearch (with_XLSX_read read env) form files p
          = handleSearch env form files p).
Proof.
  intros Ha Hne. apply truthyStr_true in Hne.
  destruct (handleSearch_attached env form files p fp Ha) as [p0 [E [Hreq _]]].
  split; [apply isExcelOrCsv_spec|]. split; intros Hx.
  - rewrite E, <- Hreq. now apply submitSearch_local.
  - split.
    + rewrite E, <- Hreq. now apply submitSearch_remote.
    + intros read. now apply handleSearch_remote_reader with (fp := fp).
Qed.

Lemma attachment_routing_witness :
  attachment janeEnv None (with_cachedFilePayload (Some pdfPayload) idlePage)
  = Some pdfPayload /\
  fileData pdfPayload <> "" /\
  requests (handleSearch janeEnv austinCriteria None
              (with_cachedFilePayload (Some pdfPayload) idlePage))
  = [TelemetryPost "" "austin" "" None;
     JsonPost SHEET_WEBHOOK (mkPayload austinCriteria (Some pdfPayload))].
Proof.
  split; [reflexivity | split; [discriminate|]].
  apply (attachment_routing janeEnv austinCriteria None
           (with_cachedFilePayload (Some pdfPayload) idlePage) pdfPayload);
    [reflexivity | discriminate | reflexivity].
Defined.

(* ================================================================= *)
(** * Fallback search *)

(** C9. [handleRedrobSearch] posts the three criteria alone to the
    secondary endpoint, whatever attachment the page holds; when the answer
    is the empty array the "no data" section is shown with its own heading
    and text, different from those of the first search, the Redrob button is
    hidden and the error notification is added. *)
Theorem fallback_search_exhausted (env : Env) (form : Criteria) (p : Page) :
  requests (handleRedrobSearch env form p)
  = (requests p ++ [JsonPost REDROB_WEBHOOK (mkPayload form None)])%list /\
  (fetchJson env REDROB_WEBHOOK (mkPayload form None) = Json (Some []) ->
   noDataSection (handleRedrobSearch env form p)
   = mkNoDataSection false "Still no results"
       "We checked Redrob too, but found nothing." true
   /\ toasts (handleRedrobSearch env form p)
      = (toasts p ++ [("No data found on Redrob either.", "error")])%list
   /\ noDataTitle (noDataSection (handleRedrobSearch env form p))
      <> noDataTitle (noDataSection (showNoData p))
   /\ noDataText (noDataSection (handleRedrobSearch env form p))
      <> noDataText (noDataSection (showNoData p))).
Proof.
  unfold handleRedrobSearch, searchData, showLoading.
  cbn [resultsHidden with_searchBtn with_noDataSection].
  split.
  - destruct (fetchJson env _ _) as [| |[[|d data]|]];
      destruct (resultsHidden p); reflexivity.
  - intros ->. destruct (resultsHidden p); cbn;
      repeat split; discriminate.
Qed.

Lemma fallback_search_exhausted_witness :
  fetchJson janeEnv REDROB_WEBHOOK (mkPayload austinCriteria None)
  = Json (Some []) /\
  redrobSearchBtnHidden
    (noDataSection
       (handleRedrobSearch janeEnv austinCriteria
          (with_cachedFilePayload (Some pdfPayload) idlePage))) = true.
Proof.
  split; [reflexivity|].
  destruct (fallback_search_exhausted janeEnv austinCriteria
              (with_cachedFilePayload (Some pdfPayload) idlePage))
    as [_ H].
  destruct (H eq_refl) as [-> _]. reflexivity.
Defined.

(* ================================================================= *)
(** * Rendering and export *)

Lemma escapeHtml_truthy (v : JSValue) :
  truthy v = true -> escapeHtml v = escapeChars (ToString v).
Proof. destruct v; simpl; congruence. Qed.

Lemma renderCell_cases (row : JSObject) (f : string) :
  renderCell row f
  = if truthy (getProp row f) then escapeChars (ToString (getProp row f))
    else "-".
Proof.
  unfold renderCell, orVal.
  destruct (truthy (getProp row f)) eqn:E;
    [now apply escapeHtml_truthy | reflexivity].
Qed.

Lemma exportText_cases (row : JSObject) (f : string) :
  exportText row f
  = if truthy (getProp row f) then ToString (getProp row f) else "".
Proof. unfold exportText, orVal. now destruct (truthy (getProp row f)). Qed.

Lemma exportText_string (row : JSObject) (f s : string) :
  getProp row f = JStr s -> exportText row f = s.
Proof.
  intros H. rewrite exportText_cases, H. simpl. now destruct s.
Qed.



(** C7. For a non-empty result set [downloadCSV] produces one file whose
    text is the header line name,location,technology,email,phone followed
    by one line per record in order, every value wrapped in double quotes
    with its own double quotes doubled; reading the text back as delimited
    text gives the field names and then the exported values of every record,
    a text field being exported as it is.  The location of the example,
    [chicagoLoop], is written as [chicagoLoopQuoted]. *)
Theorem csv_export_roundtrip (iso : string) (p : Page) (d : JSObject)
        (data : list JSObject) :
  currentData p = d :: data ->
  downloads (downloadCSV iso p)
  = (downloads p
       ++ [CsvFile (exportName iso ".csv") (csvString (d :: data))])%list /\
  csvString (d :: data)
  = join (str1 newline)
      ("name,location,technology,email,phone"
       :: map (fun row =>
                 join "," (map (fun f => csvQuote (exportText row f)) fields))
              (d :: data)) /\
  parseCSV (csvString (d :: data))
  = Some (fields :: map (fun row => map (exportText row) fields) (d :: data)) /\
  (forall row f s, getProp row f = JStr s -> exportText row f = s) /\
  csvValue [("location", JStr chicagoLoop)] "location" = chicagoLoopQuoted.
Proof.
  intros Hd. split.
  - unfold downloadCSV. rewrite Hd. reflexivity.
  - split; [reflexivity|]. split; [apply parseCSV_csvString|].
    split; [apply exportText_string | reflexivity].
Qed.

Lemma csv_export_roundtrip_witness :
  currentData (renderTable [[("name", JStr "Ann"); ("location", JStr chicagoLoop)]]
                 idlePage)
  = [[("name", JStr "Ann"); ("location", JStr chicagoLoop)]] /\
  parseCSV (csvString [[("name", JStr "Ann"); ("location", JStr chicagoLoop)]])
  = Some [fields; ["Ann"; chicagoLoop; ""; ""; ""]].
Proof.
  split; [reflexivity|].
  apply (csv_export_roundtrip isoNow
           (renderTable [[("name", JStr "Ann"); ("location", JStr chicagoLoop)]]
              idlePage)
           [("name", JStr "Ann"); ("location", JStr chicagoLoop)] []).
  reflexivity.
Defined.

(** ** What the exports read *)























(* ================================================================= *)
(** * Spreadsheet decoding *)

Lemma make_json_row_keys (hdr : list string) (d : JSValue) :
  forall cells, Object_keys (XLSX.make_json_row hdr cells (Some d)) = hdr.
Proof.
  induction hdr as [|h hdr IH]; intros cells; [reflexivity|].
  cbn [XLSX.make_json_row]. unfold Object_keys in *.
  destruct cells as [|[v|] cells]; cbn [map fst tl]; now rewrite IH.
Qed.

Lemma make_json_row_nth (hdr : list string) (d : JSValue) :
  forall cells i h,
    nth_error hdr i = Some h ->
    nth_error (XLSX.make_json_row hdr cells (Some d)) i
    = Some (h, match nth i cells None with Some v => v | None => d end).
Proof.
  induction hdr as [|h0 hdr IH]; intros cells i h Hi.
  - destruct i; discriminate.
  - cbn [XLSX.make_json_row]. destruct i as [|i].
    + injection Hi as <-. now destruct cells as [|[v|] cells].
    + cbn [nth_error] in Hi.
      destruct cells as [|c cells].
      * cbn [tl nth_error]. rewrite (IH [] i h Hi). now destruct i.
      * cbn [tl nth]. destruct c; cbn [nth_error]; apply (IH cells i h Hi).
Qed.

Lemma processLocalFile_first_sheet (read : string -> option XLSX.Workbook)
      (b : string) (c : Criteria) (wb : XLSX.Workbook) (n : string)
      (others : list string) (ws : XLSX.Worksheet) :
  read (cleanBase64 b) = Some wb ->
  XLSX.SheetNames wb = n :: others ->
  XLSX.sheet wb n = Some ws ->
  processLocalFile read b c
  = Some (map mapRow
            (filter (filterRow c)
               (XLSX.sheet_to_json (Some ws) (Some (JStr ""))))).
Proof.
  intros Hr Hn Hs. unfold processLocalFile. rewrite Hr, Hn.
  cbn [nth_error ToPropertyKey]. now rewrite Hs.
Qed.

Lemma processLocalFile_unreadable (read : string -> option XLSX.Workbook)
      (b : string) (c : Criteria) :
  read (cleanBase64 b) = None -> processLocalFile read b c = None.
Proof. intros H. unfold processLocalFile. now rewrite H. Qed.

Lemma submitSearch_unreadable (env : Env) (form : Criteria)
      (files : option File) (fp : FilePayload) (p : Page) :
  truthyStr (fileData fp) = true -> isExcelOrCsv fp = true ->
  XLSX_read env (cleanBase64 (fileData fp)) = None ->
  currentData (submitSearch env form files (Some fp) p) = [] /\
  resultsHidden (submitSearch env form files (Some fp) p) = true /\
  resultsTableBody (submitSearch env form files (Some fp) p)
  = resultsTableBody p /\
  toasts (submitSearch env form files (Some fp) p)
  = (toasts p ++ [("An error occurred while searching.", "error")])%list.
Proof.
  intros Ht Hx Hr. unfold submitSearch.
  rewrite (nothingToSearch_attached _ _ Ht).
  unfold runSearch. cbn [file criteria].
  rewrite Ht, Hx, (processLocalFile_unreadable _ _ _ Hr).
  cbn. unfold showLoading. cbn. repeat split.
Qed.

(** What [processLocalFile] does with a payload that is not empty.  It
    hands the parser the part of the data URI after the first comma whenever
    that part, a base64 text, is not empty; it reads the sheet listed first
    in the workbook and no other; with the empty-string default every header
    key is present in every row and an empty cell is the empty string; and
    when the parser cannot read the payload the promise is rejected,
    [handleSearch] shows the error notification, and the result set stays
    empty with the results hidden and the table untouched. *)
Lemma spreadsheet_decoder :
  (forall pre payload,
     noChar comma pre = true -> noChar comma payload = true -> payload <> "" ->
     cleanBase64 (pre ++ String comma payload) = payload) /\
  (forall read b c wb n others ws,
     read (cleanBase64 b) = Some wb ->
     XLSX.SheetNames wb = n :: others ->
     XLSX.sheet wb n = Some ws ->
     processLocalFile read b c
     = Some (map mapRow
               (filter (filterRow c)
                  (XLSX.sheet_to_json (Some ws) (Some (JStr "")))))) /\
  (forall hdr cells,
     Object_keys (XLSX.make_json_row hdr cells (Some (JStr ""))) = hdr /\
     forall i h,
       nth_error hdr i = Some h -> nth i cells None = None ->
       nth_error (XLSX.make_json_row hdr cells (Some (JStr ""))) i
       = Some (h, JStr "")) /\
  (forall env form files p fp,
     attachment env files p = Some fp ->
     fileData fp <> "" ->
     isExcelOrCsv fp = true ->
     XLSX_read env (cleanBase64 (fileData fp)) = None ->
     processLocalFile (XLSX_read env) (fileData fp) form = None /\
     currentData (handleSearch env form files p) = [] /\
     resultsHidden (handleSearch env form files p) = true /\
     resultsTableBody (handleSearch env form files p) = resultsTableBody p /\
     exists shown,
       toasts (handleSearch env form files p)
       = (shown ++ [("An error occurred while searching.", "error")])%list).
Proof.
  split; [exact cleanBase64_data_uri|].
  split; [exact processLocalFile_first_sheet|].
  split.
  - intros hdr cells. split; [apply make_json_row_keys|].
    intros i h Hi Hc. rewrite (make_json_row_nth _ _ _ _ _ Hi). now rewrite Hc.
  - intros env form files p fp Ha Hne Hx Hr. apply truthyStr_true in Hne.
    destruct (handleSearch_attached env form files p fp Ha)
      as [p0 [E [_ [Hbody [extra Htoasts]]]]].
    destruct (submitSearch_unreadable env form files fp p0 Hne Hx Hr)
      as [H1 [H2 [H3 H4]]].
    rewrite E. split; [now apply processLocalFile_unreadable|].
    split; [exact H1|]. split; [exact H2|]. split; [now rewrite H3|].
    exists (toasts p ++ extra)%list. now rewrite H4, Htoasts.
Qed.

Lemma spreadsheet_decoder_witness :
  cleanBase64 janeDataUri
  = "RnVsbCBOYW1lLENpdHksU2tpbGxzZXQKSmFuZSBEb2UsQXVzdGluLEdv" /\
  currentData
    (handleSearch brokenEnv austinCriteria None
       (with_cachedFilePayload (Some brokenPayload) idlePage)) = [].
Proof.
  destruct spreadsheet_decoder as [Hclean [_ [_ Hfail]]]. split.
  - apply (Hclean "data:text/csv;base64"
             "RnVsbCBOYW1lLENpdHksU2tpbGxzZXQKSmFuZSBEb2UsQXVzdGluLEdv");
      [reflexivity | reflexivity | discriminate].
  - apply (Hfail brokenEnv austinCriteria None
             (with_cachedFilePayload (Some brokenPayload) idlePage)
             brokenPayload);
      [reflexivity | discriminate | reflexivity | reflexivity].
Defined.

(** C6, at the failing input.  For the data URI of an empty file the part
    after the first comma is empty: the prefix is not stripped, and the
    parser is handed the whole URI, prefix included. *)
Theorem empty_payload_keeps_prefix :
  emptyDataUri = "data:text/csv;base64" ++ String comma "" /\
  noChar comma "data:text/csv;base64" = true /\
  cleanBase64 emptyDataUri = emptyDataUri /\
  cleanBase64 emptyDataUri <> "".
Proof. repeat split. discriminate. Qed.

(* ================================================================= *)
(** * The record normalizer and the criteria filter *)

Lemma cellOrEmpty_string (row : RawRow) (v : JSValue) :
  Forall (fun kv => isString (snd kv) = true) row ->
  cellOrEmpty row v -> isString v = true.
Proof.
  intros Hall [-> | [_ Hin]]; [reflexivity|].
  apply in_map_iff in Hin. destruct Hin as [kv [<- Hkv]].
  rewrite Forall_forall in Hall. now apply Hall.
Qed.

(** C8 (as amended).  The normalizer is total: for every row it yields a
    record with exactly the five fields name, location, technology, email,
    phone, none of them undefined or null; each is the empty string or a
    truthy cell of the row, hence a string whenever the cells of the row are
    strings; and, for a row without a column called "undefined", a field
    none of whose tokens occurs in a header is the empty string. *)
Theorem normalizer_total (row : RawRow) :
  Object_keys (mapRow row) = fields /\
  (forall f, In f fields ->
     getProp (mapRow row) f <> JUndefined /\
     getProp (mapRow row) f <> JNull /\
     cellOrEmpty row (getProp (mapRow row) f)) /\
  (Forall (fun kv => isString (snd kv) = true) row ->
   forall f, In f fields -> isString (getProp (mapRow row) f) = true) /\
  (forall f, In f fields ->
     noMatchingHeader row f = true -> hasUndefinedKey row = false ->
     getProp (mapRow row) f = JStr "").
Proof.
  split; [reflexivity|]. split; [|split].
  - intros f Hf. pose proof (mapRow_cellOrEmpty row f Hf) as Hc.
    destruct (cellOrEmpty_defined _ _ Hc). tauto.
  - intros Hall f Hf. apply (cellOrEmpty_string row); [exact Hall|].
    now apply mapRow_cellOrEmpty.
  - intros f Hf. now apply mapRow_no_match.
Qed.

Lemma normalizer_total_witness :
  In "email" fields /\
  noMatchingHeader phoneRow "email" = true /\
  hasUndefinedKey phoneRow = false /\
  getProp (mapRow phoneRow) "email" = JStr "".
Proof.
  assert (Hin : In "email" fields) by (cbn; tauto).
  split; [exact Hin|]. split; [reflexivity|]. split; [reflexivity|].
  destruct (normalizer_total phoneRow) as [_ [_ [_ H]]].
  apply (H "email" Hin); reflexivity.
Defined.

(** C8, counterexample.  A row with a numeric phone column is normalized to
    a record whose phone field is that number, not a string. *)
Lemma numeric_cell_stays_number :
  getProp (mapRow phoneRow) "phone" = JNum 5551234 /\
  isString (getProp (mapRow phoneRow) "phone") = false.
Proof. split; reflexivity. Qed.

(** The location comparison string of the filter comes from a header
    containing "location" alone: a City column does not feed it. *)
Lemma rowLocation_ignores_city :
  rowLocation cityRow = "" /\
  getProp (mapRow cityRow) "location" = JStr "Austin".
Proof. split; reflexivity. Qed.

(** C2, at the failing input.  The row has the single column City with the
    value Austin and the criteria ask for the location "austin".  The
    normalizer resolves the location of the row to "Austin", whose lower-case
    form contains the criterion, and the filter excludes the row. *)
Theorem city_row_excluded :
  getProp (mapRow cityRow) "location" = JStr "Austin" /\
  includes (toLowerCase "Austin") (toLowerCase (location austinCriteria)) = true /\
  name austinCriteria = "" /\ technology austinCriteria = "" /\
  filterRow austinCriteria cityRow = false.
Proof. repeat split. Qed.

(** C1, at the failing input (scenario B).  The search is local: the only
    request is the telemetry one and nothing goes to the primary endpoint.
    The decoded row normalizes to Jane Doe, Austin, Go.  The filter excludes
    the row all the same, so the result set is empty and the page shows the
    "no data" section. *)
Theorem scenario_B_finds_nothing :
  requests (handleSearch janeEnv austinCriteria (Some janeFile) idlePage)
  = [TelemetryPost "" "austin" "" (Some janeFile)] /\
  filter toPrimary
    (requests (handleSearch janeEnv austinCriteria (Some janeFile) idlePage))
  = [] /\
  XLSX.sheet_to_json (Some janeSheet) (Some (JStr "")) = [janeRow] /\
  mapRow janeRow
  = [("name", JStr "Jane Doe"); ("location", JStr "Austin");
     ("technology", JStr "Go"); ("email", JStr ""); ("phone", JStr "")] /\
  filterRow austinCriteria janeRow = false /\
  processLocalFile (XLSX_read janeEnv) janeDataUri austinCriteria = Some [] /\
  currentData (handleSearch janeEnv austinCriteria (Some janeFile) idlePage)
  = [] /\
  noDataHidden
    (noDataSection
       (handleSearch janeEnv austinCriteria (Some janeFile) idlePage))
  = false.
Proof. repeat split. Qed.

(* ================================================================= *)
(** * Further properties of the code *)

(** ** Escaping *)

Lemma escapeChars_cons (a : ascii) (s : string) :
  escapeChars (String a s) = escapeChar a ++ escapeChars s.
Proof.
  unfold escapeChars, escapeChar. cbn [replaceAll].
  destruct (Ascii.eqb a "&") eqn:E1.
  { apply Ascii.eqb_eq in E1. subst a. reflexivity. }
  cbn [replaceAll]. destruct (Ascii.eqb a "<") eqn:E2.
  { apply Ascii.eqb_eq in E2. subst a. reflexivity. }
  cbn [replaceAll]. destruct (Ascii.eqb a ">") eqn:E3.
  { apply Ascii.eqb_eq in E3. subst a. reflexivity. }
  cbn [replaceAll]. destruct (Ascii.eqb a dquote) eqn:E4.
  { apply Ascii.eqb_eq in E4. subst a. reflexivity. }
  cbn [replaceAll]. destruct (Ascii.eqb a "'") eqn:E5.
  { apply Ascii.eqb_eq in E5. subst a. reflexivity. }
  reflexivity.
Qed.

Lemma escapeChars_app (s t : string) :
  escapeChars (s ++ t) = escapeChars s ++ escapeChars t.
Proof.
  induction s as [|a s IH]; [reflexivity|].
  cbn [append]. now rewrite !escapeChars_cons, IH, append_assoc.
Qed.

Lemma noChar_app (c : ascii) (s t : string) :
  noChar c (s ++ t) = noChar c s && noChar c t.
Proof.
  induction s as [|a s IH]; [reflexivity|].
  cbn. now rewrite IH, andb_assoc.
Qed.

Lemma escapeChar_safe (a : ascii) :
  noChar "<" (escapeChar a) = true /\ noChar ">" (escapeChar a) = true /\
  noChar dquote (escapeChar a) = true /\ noChar "'" (escapeChar a) = true.
Proof.
  unfold escapeChar.
  destruct (Ascii.eqb a "&") eqn:E1; [repeat split|].
  destruct (Ascii.eqb a "<") eqn:E2; [repeat split|].
  destruct (Ascii.eqb a ">") eqn:E3; [repeat split|].
  destruct (Ascii.eqb a dquote) eqn:E4; [repeat split|].
  destruct (Ascii.eqb a "'") eqn:E5; [repeat split|].
  unfold str1. cbn [noChar]. now rewrite E2, E3, E4, E5.
Qed.

Lemma escapeChars_safe (s : string) :
  noChar "<" (escapeChars s) = true /\ noChar ">" (escapeChars s) = true /\
  noChar dquote (escapeChars s) = true /\ noChar "'" (escapeChars s) = true.
Proof.
  induction s as [|a s [I1 [I2 [I3 I4]]]]; [repeat split|].
  destruct (escapeChar_safe a) as [H1 [H2 [H3 H4]]].
  rewrite escapeChars_cons, !noChar_app, H1, H2, H3, H4, I1, I2, I3, I4.
  repeat split.
Qed.

Lemma unescape_escapeChar (a : ascii) (rest : string) :
  unescapeFrom None (escapeChar a ++ rest) = String a (unescapeFrom None rest).
Proof.
  unfold escapeChar.
  destruct (Ascii.eqb a "&") eqn:E1.
  { apply Ascii.eqb_eq in E1. subst a. reflexivity. }
  destruct (Ascii.eqb a "<") eqn:E2.
  { apply Ascii.eqb_eq in E2. subst a. reflexivity. }
  destruct (Ascii.eqb a ">") eqn:E3.
  { apply Ascii.eqb_eq in E3. subst a. reflexivity. }
  destruct (Ascii.eqb a dquote) eqn:E4.
  { apply Ascii.eqb_eq in E4. subst a. reflexivity. }
  destruct (Ascii.eqb a "'") eqn:E5.
  { apply Ascii.eqb_eq in E5. subst a. reflexivity. }
  cbn. now rewrite E1.
Qed.

Lemma unescape_escapeChars (s : string) : unescapeHtml (escapeChars s) = s.
Proof.
  unfold unescapeHtml. induction s as [|a s IH]; [reflexivity|].
  now rewrite escapeChars_cons, unescape_escapeChar, IH.
Qed.

(** X1. Whatever the value, the text [escapeHtml] returns contains none of
    the characters that open or close a tag or an attribute value: no
    less-than sign, no greater-than sign, no double quote and no single
    quote. *)
Theorem escapeHtml_no_markup (v : JSValue) :
  noChar "<" (escapeHtml v) = true /\ noChar ">" (escapeHtml v) = true /\
  noChar dquote (escapeHtml v) = true /\ noChar "'" (escapeHtml v) = true.
Proof.
  destruct v; cbn [escapeHtml]; try apply escapeChars_safe; repeat split.
Qed.

(** X2. Reading an escaped text back, entity by entity, gives the text that
    was escaped; in particular a table cell reads back as the text of the
    field, or as "-" when the field is falsy. *)
Theorem table_cell_reads_back (row : JSObject) (f s : string) :
  unescapeHtml (escapeHtml (JStr s)) = s /\
  unescapeHtml (renderCell row f)
  = (if truthy (getProp row f) then ToString (getProp row f) else "-").
Proof.
  split; [apply unescape_escapeChars|].
  rewrite renderCell_cases.
  destruct (truthy (getProp row f)); [apply unescape_escapeChars | reflexivity].
Qed.

(** X3. Escaping goes character by character: the escape of a concatenation
    is the concatenation of the escapes, so a text escaped in pieces is the
    text escaped as a whole. *)
Theorem escapeHtml_concatenation (s t : string) :
  escapeHtml (JStr (s ++ t)) = escapeHtml (JStr s) ++ escapeHtml (JStr t).
Proof. cbn [escapeHtml ToString]. apply escapeChars_app. Qed.

Lemma escapeChar_nonempty (a : ascii) : escapeChar a <> "".
Proof.
  unfold escapeChar.
  repeat match goal with
         | |- context [if ?b then _ else _] => destruct b
         end; discriminate.
Qed.

Lemma escapeChars_nonempty (s : string) : s <> "" -> escapeChars s <> "".
Proof.
  destruct s as [|a s]; [congruence|]. intros _.
  rewrite escapeChars_cons. pose proof (escapeChar_nonempty a) as H.
  destruct (escapeChar a); [congruence | discriminate].
Qed.

(** X4. A table cell is not empty when the field is missing or falsy, for
    it then shows "-", nor when the field is a string, for it then shows the
    escaped string, which has at least one character. *)
Theorem table_cell_never_empty (row : JSObject) (f : string) :
  truthy (getProp row f) = false \/ isString (getProp row f) = true ->
  renderCell row f <> "".
Proof.
  intros H. rewrite renderCell_cases.
  destruct (truthy (getProp row f)) eqn:E; [|discriminate].
  destruct H as [H | H]; [discriminate|].
  destruct (getProp row f) as [| | | |s]; try discriminate.
  apply escapeChars_nonempty. now destruct s.
Qed.

Lemma table_cell_never_empty_witness :
  isString (getProp (mapRow janeRow) "name") = true /\
  renderCell (mapRow janeRow) "name" <> "".
Proof.
  split; [reflexivity|].
  apply (table_cell_never_empty (mapRow janeRow) "name").
  right. reflexivity.
Defined.

(** ** The payload handed to the parser, continued *)

Lemma cleanBase64_second_segment (pre seg rest : string) :
  noChar comma pre = true -> noChar comma seg = true -> seg <> "" ->
  cleanBase64 (pre ++ String comma (seg ++ String comma rest)) = seg.
Proof.
  intros Hpre Hseg Hne. unfold cleanBase64.
  rewrite (split_at_sep _ _ _ Hpre), (split_at_sep _ _ _ Hseg).
  cbn [nth_error]. unfold orStr. now destruct seg.
Qed.

(** X5. When the encoded data holds a second comma, [processLocalFile] hands
    the parser only the part between the first and the second comma:
    whatever follows the second comma is dropped. *)
Theorem payload_cut_at_second_comma
        (read : string -> option XLSX.Workbook) (c : Criteria)
        (pre seg rest : string) :
  noChar comma pre = true -> noChar comma seg = true -> seg <> "" ->
  cleanBase64 (pre ++ String comma (seg ++ String comma rest)) = seg /\
  processLocalFile read (pre ++ String comma (seg ++ String comma rest)) c
  = processLocalFile read seg c.
Proof.
  intros Hpre Hseg Hne.
  pose proof (cleanBase64_second_segment pre seg rest Hpre Hseg Hne) as E.
  split; [exact E|].
  unfold processLocalFile. now rewrite E, (cleanBase64_no_prefix _ Hseg).
Qed.

Lemma payload_cut_at_second_comma_witness :
  noChar comma "data:text/csv;base64" = true /\
  cleanBase64 "data:text/csv;base64,QUJD,REVG" = "QUJD".
Proof.
  split; [reflexivity|].
  apply (payload_cut_at_second_comma (fun _ => None) austinCriteria
           "data:text/csv;base64" "QUJD" "REVG");
    [reflexivity | reflexivity | discriminate].
Defined.

(** ** The criteria filter, continued *)

Lemma contains_trans (s t u : string) :
  contains s t -> contains t u -> contains s u.
Proof.
  intros [a [b ->]] [a' [b' ->]]. exists (a ++ a'), (b' ++ b).
  now rewrite !append_assoc.
Qed.

Lemma contains_empty (t : string) : contains "" t -> t = "".
Proof.
  intros [a [b H]]. destruct a; [|discriminate]. now destruct t.
Qed.

Lemma contains_refl (s : string) : contains s s.
Proof. exists "", "". cbn. now rewrite append_nil_r. Qed.

Lemma contains_nothing (s : string) : contains s "".
Proof. exists "", s. reflexivity. Qed.

(** The match flag of the filter (lines 519-521) for a criterion whose
    lower-case form holds that of another. *)
Lemma match_flag_looser (crit crit' v : string) :
  contains (toLowerCase crit) (toLowerCase crit') ->
  negb (truthyStr (toLowerCase (orStr crit "")))
  || includes v (toLowerCase (orStr crit "")) = true ->
  negb (truthyStr (toLowerCase (orStr crit' "")))
  || includes v (toLowerCase (orStr crit' "")) = true.
Proof.
  rewrite !orStr_empty_r, !orb_true_iff, !negb_true_iff, !truthyStr_false,
    !includes_spec.
  intros Hsub [Hempty | Hv].
  - left. rewrite Hempty in Hsub. now apply contains_empty.
  - right. now apply (contains_trans _ _ _ Hv).
Qed.

Lemma filterRow_looser (c c' : Criteria) (row : RawRow) :
  looserCriteria c' c -> filterRow c row = true -> filterRow c' row = true.
Proof.
  intros [Hn [Hl Ht]]. unfold filterRow. cbv zeta.
  rewrite !andb_true_iff. intros [[Mn Ml] Mt].
  repeat split; eapply match_flag_looser; eassumption.
Qed.

(** Clearing criteria, and keeping the others, gives looser criteria. *)
Lemma cleared_criteria_looser (c c' : Criteria) :
  (name c' = "" \/ name c' = name c) ->
  (location c' = "" \/ location c' = location c) ->
  (technology c' = "" \/ technology c' = technology c) ->
  looserCriteria c' c.
Proof.
  unfold looserCriteria.
  intros [-> | ->] [-> | ->] [-> | ->]; repeat split;
    first [apply contains_nothing | apply contains_refl].
Qed.

Lemma filterRow_sameUpToCase (c c' : Criteria) (row : RawRow) :
  sameUpToCase c c' -> filterRow c row = filterRow c' row.
Proof.
  intros [Hn [Hl Ht]]. unfold filterRow. cbv zeta.
  now rewrite !orStr_empty_r, Hn, Hl, Ht.
Qed.

Lemma filterRow_no_criteria (c : Criteria) (row : RawRow) :
  name c = "" -> location c = "" -> technology c = "" ->
  filterRow c row = true.
Proof.
  intros Hn Hl Ht. apply filterRow_spec. unfold criterionMatches. tauto.
Qed.

Lemma filter_all {A : Type} (f : A -> bool) (l : list A) :
  (forall x, f x = true) -> filter f l = l.
Proof.
  intros H. induction l as [|x l IH]; [reflexivity|].
  cbn. now rewrite H, IH.
Qed.

Lemma filter_incl_pointwise {A : Type} (f g : A -> bool) (l : list A) :
  (forall x, f x = true -> g x = true) -> incl (filter f l) (filter g l).
Proof.
  intros H x Hx. apply filter_In in Hx. apply filter_In.
  split; [tauto | apply H; tauto].
Qed.

(** The rows [processLocalFile] filters: those of the first sheet. *)
Lemma processLocalFile_rows (read : string -> option XLSX.Workbook)
      (b : string) (c : Criteria) (wb : XLSX.Workbook) :
  read (cleanBase64 b) = Some wb ->
  processLocalFile read b c
  = Some (map mapRow
            (filter (filterRow c)
               (XLSX.sheet_to_json
                  (XLSX.sheet wb (ToPropertyKey (nth_error (XLSX.SheetNames wb) 0)))
                  (Some (JStr ""))))).
Proof. intros H. unfold processLocalFile. now rewrite H. Qed.

(** X6. With the three criteria empty the local search keeps every row: the
    result is the normalization of all the rows of the first sheet, in
    order. *)
Theorem local_search_without_criteria
        (read : string -> option XLSX.Workbook) (b : string) (c : Criteria)
        (wb : XLSX.Workbook) :
  name c = "" -> location c = "" -> technology c = "" ->
  read (cleanBase64 b) = Some wb ->
  processLocalFile read b c
  = Some (map mapRow
            (XLSX.sheet_to_json
               (XLSX.sheet wb (ToPropertyKey (nth_error (XLSX.SheetNames wb) 0)))
               (Some (JStr "")))).
Proof.
  intros Hn Hl Ht Hr. rewrite (processLocalFile_rows _ _ _ _ Hr).
  rewrite filter_all; [reflexivity|].
  intros row. now apply filterRow_no_criteria.
Qed.

Lemma local_search_without_criteria_witness :
  name (mkCriteria "" "" "") = "" /\
  XLSX_read janeEnv (cleanBase64 janeDataUri) = Some janeWorkbook /\
  processLocalFile (XLSX_read janeEnv) janeDataUri (mkCriteria "" "" "")
  = Some [mapRow janeRow].
Proof.
  split; [reflexivity|]. split; [reflexivity|].
  apply (local_search_without_criteria (XLSX_read janeEnv) janeDataUri
           (mkCriteria "" "" "") janeWorkbook); reflexivity.
Defined.

(** X7. The criteria are matched without regard to letter case: two criteria
    records that differ by case only select the same rows, and the local
    search returns the same result for both. *)
Theorem criteria_case_insensitive
        (read : string -> option XLSX.Workbook) (b : string)
        (c c' : Criteria) (row : RawRow) :
  sameUpToCase c c' ->
  filterRow c row = filterRow c' row /\
  processLocalFile read b c = processLocalFile read b c'.
Proof.
  intros H. split; [now apply filterRow_sameUpToCase|].
  unfold processLocalFile. destruct (read (cleanBase64 b)); [|reflexivity].
  do 2 f_equal. apply filter_ext. intros r. now apply filterRow_sameUpToCase.
Qed.

Lemma criteria_case_insensitive_witness :
  sameUpToCase (mkCriteria "JANE" "" "go") (mkCriteria "jane" "" "GO") /\
  filterRow (mkCriteria "JANE" "" "go") janeRow
  = filterRow (mkCriteria "jane" "" "GO") janeRow.
Proof.
  assert (H : sameUpToCase (mkCriteria "JANE" "" "go") (mkCriteria "jane" "" "GO"))
    by (repeat split).
  split; [exact H|].
  apply (criteria_case_insensitive (XLSX_read janeEnv) janeDataUri _ _ janeRow H).
Defined.

(** X8. Loosening the criteria never loses a row.  When each criterion of
    [c'], in lower case, occurs in the lower-case form of the corresponding
    criterion of [c] (as when [c'] is [c] with some criteria cleared), every
    row the filter keeps for [c] it keeps for [c'], and every record of the
    local search for [c] is among those for [c']. *)
Theorem looser_criteria_keep_rows
        (read : string -> option XLSX.Workbook) (b : string)
        (c c' : Criteria) (row : RawRow) (found : list JSObject) :
  looserCriteria c' c ->
  (filterRow c row = true -> filterRow c' row = true) /\
  (processLocalFile read b c = Some found ->
   exists found', processLocalFile read b c' = Some found' /\ incl found found').
Proof.
  intros H. split; [now apply filterRow_looser|].
  unfold processLocalFile. destruct (read (cleanBase64 b)); [|discriminate].
  intros [= <-]. eexists. split; [reflexivity|].
  apply incl_map. apply filter_incl_pointwise.
  intros r. now apply filterRow_looser.
Qed.

Lemma looser_criteria_keep_rows_witness :
  looserCriteria (mkCriteria "" "" "go") (mkCriteria "Jane Doe" "" "go") /\
  filterRow (mkCriteria "Jane Doe" "" "go") janeRow = true /\
  filterRow (mkCriteria "" "" "go") janeRow = true.
Proof.
  assert (H : looserCriteria (mkCriteria "" "" "go")
                             (mkCriteria "Jane Doe" "" "go")).
  { apply cleared_criteria_looser; cbn; tauto. }
  split; [exact H|]. split; [reflexivity|].
  apply (looser_criteria_keep_rows (XLSX_read janeEnv) janeDataUri
           (mkCriteria "Jane Doe" "" "go") (mkCriteria "" "" "go") janeRow []
           H).
  reflexivity.
Defined.

(** ** The record normalizer, continued *)

Lemma find_first_match {A : Type} (f : A -> bool) (pre : list A) (x : A)
      (post : list A) :
  forallb (fun y => negb (f y)) pre = true -> f x = true ->
  find f (pre ++ x :: post)%list = Some x.
Proof.
  intros Hpre Hx. induction pre as [|y pre IH]; cbn.
  - now rewrite Hx.
  - cbn in Hpre. apply andb_true_iff in Hpre. destruct Hpre as [Hy Hpre].
    apply negb_true_iff in Hy. rewrite Hy. now apply IH.
Qed.

Lemma getProp_first (pre : JSObject) (k : string) (v : JSValue)
      (post : JSObject) :
  existsb (String.eqb k) (Object_keys pre) = false ->
  getProp (pre ++ (k, v) :: post)%list k = v.
Proof.
  intros H. unfold getProp.
  rewrite (find_first_match _ pre (k, v) post); [reflexivity| |].
  - unfold Object_keys in H. induction pre as [|[k' v'] pre IH];
      [reflexivity|].
    cbn in H |- *. rewrite (String.eqb_sym k' k).
    apply orb_false_iff in H. destruct H as [-> H]. now apply IH.
  - cbn. apply String.eqb_refl.
Qed.

Lemma unmatched_keys_differ (t k : string) (keys : list string) :
  forallb (fun k' => negb (includes (toLowerCase k') t)) keys = true ->
  includes (toLowerCase k) t = true ->
  existsb (String.eqb k) keys = false.
Proof.
  intros Hkeys Hk. induction keys as [|k' keys IH]; [reflexivity|].
  cbn in Hkeys |- *. apply andb_true_iff in Hkeys. destruct Hkeys as [Hk' Hkeys].
  rewrite (IH Hkeys), orb_false_r. apply String.eqb_neq. intros <-.
  rewrite Hk in Hk'. discriminate.
Qed.

(** X9. Both the normalizer and the filter take a field from the first
    column, in the order of the row, whose header contains the token,
    whatever the letter case of the header; columns further on are ignored
    even when their headers contain the token too. *)
Theorem first_matching_header_wins (pre post : RawRow) (k : string)
        (v : JSValue) (t : string) :
  forallb (fun k' => negb (includes (toLowerCase k') t)) (Object_keys pre)
  = true ->
  includes (toLowerCase k) t = true ->
  k <> "" ->
  findVal (pre ++ (k, v) :: post)%list t = orVal v (JStr "") /\
  getValue (pre ++ (k, v) :: post)%list t = toLowerCase (ToString v).
Proof.
  intros Hpre Hk Hne.
  assert (Hfind : find (fun k' => includes (toLowerCase k') t)
                       (Object_keys (pre ++ (k, v) :: post)%list) = Some k).
  { unfold Object_keys. rewrite map_app. cbn [map fst].
    now apply find_first_match. }
  assert (Hget : getProp (pre ++ (k, v) :: post)%list k = v).
  { apply getProp_first. now apply (unmatched_keys_differ t). }
  unfold findVal, getValue. rewrite Hfind. cbn [ToPropertyKey].
  rewrite Hget. apply truthyStr_true in Hne. now rewrite Hne.
Qed.

Lemma first_matching_header_wins_witness :
  includes (toLowerCase "First Name") "name" = true /\
  findVal twoNamesRow "name" = JStr "Jane" /\
  getValue twoNamesRow "name" = "jane".
Proof.
  split; [reflexivity|].
  apply (first_matching_header_wins [("City", JStr "Austin")]
           [("Last Name", JStr "Doe")] "First Name" (JStr "Jane") "name");
    [reflexivity | reflexivity | discriminate].
Defined.

(** ** The course of a search *)

Lemma submitSearch_started (env : Env) (form : Criteria) (files : option File)
      (fpo : option FilePayload) (p : Page) :
  nothingToSearch (mkPayload form fpo) = false ->
  submitSearch env form files fpo p
  = settleSearch
      (runSearch env (mkPayload form fpo)
         (showLoading
            (resetUI (with_requests (requests p ++ [telemetryOf form files]) p)))).
Proof.
  intros H. unfold submitSearch, settleSearch, telemetryOf. rewrite H.
  now destruct (runSearch _ _ _) as [[data|] p3].
Qed.

Lemma handleSearch_started (env : Env) (form : Criteria) (files : option File)
      (p : Page) :
  searchStarts env form files p = true ->
  handleSearch env form files p
  = settleSearch
      (runSearch env (mkPayload form (attachment env files p))
         (showLoading
            (resetUI
               (with_requests
                  (requests (pageAfterAttach env files p)
                     ++ [telemetryOf form files])
                  (pageAfterAttach env files p))))).
Proof.
  unfold searchStarts, handleSearch, attachment, pageAfterAttach.
  destruct files as [f|].
  - destruct (toBase64 env f) as [b|]; [|discriminate].
    intros H. apply negb_true_iff in H. now apply submitSearch_started.
  - intros H. apply negb_true_iff in H. now apply submitSearch_started.
Qed.

Lemma pageAfterAttach_fields (env : Env) (files : option File) (p : Page) :
  requests (pageAfterAttach env files p) = requests p /\
  searchBtn (pageAfterAttach env files p) = searchBtn p /\
  currentData (pageAfterAttach env files p) = currentData p /\
  resultsTableBody (pageAfterAttach env files p) = resultsTableBody p /\
  downloads (pageAfterAttach env files p) = downloads p.
Proof.
  unfold pageAfterAttach, saveFileToStorage.
  destruct files as [f|]; [|repeat split].
  destruct (toBase64 env f) as [b|]; [|repeat split].
  destruct (storageAccepts env _); repeat split.
Qed.

(** The page a search leaves behind, field by field, from the page [q] on
    which the search ran and its outcome. *)
Lemma settleSearch_fields (outcome : option (option (list JSObject)))
      (q : Page) :
  searchBtn (settleSearch (outcome, q)) = idleSearchBtn /\
  loadingHidden (settleSearch (outcome, q)) = true /\
  requests (settleSearch (outcome, q)) = requests q /\
  cachedFilePayload (settleSearch (outcome, q)) = cachedFilePayload q /\
  sessionStorage (settleSearch (outcome, q)) = sessionStorage q /\
  match outcome with
  | Some (Some (d :: data)) =>
      currentData (settleSearch (outcome, q)) = d :: data /\
      resultsHidden (settleSearch (outcome, q)) = false /\
      resultsTableBody (settleSearch (outcome, q)) = map renderRow (d :: data) /\
      noDataSection (settleSearch (outcome, q)) = noDataSection q /\
      toasts (settleSearch (outcome, q)) = toasts q
  | Some _ =>
      currentData (settleSearch (outcome, q)) = currentData q /\
      resultsHidden (settleSearch (outcome, q)) = resultsHidden q /\
      resultsTableBody (settleSearch (outcome, q)) = resultsTableBody q /\
      noDataSection (settleSearch (outcome, q)) = firstNoData /\
      toasts (settleSearch (outcome, q)) = toasts q
  | None =>
      currentData (settleSearch (outcome, q)) = currentData q /\
      resultsHidden (settleSearch (outcome, q)) = resultsHidden q /\
      resultsTableBody (settleSearch (outcome, q)) = resultsTableBody q /\
      noDataSection (settleSearch (outcome, q)) = noDataSection q /\
      toasts (settleSearch (outcome, q))
      = (toasts q ++ [("An error occurred while searching.", "error")])%list
  end.
Proof. destruct outcome as [[[|d data]|]|]; repeat split. Qed.

(** The page on which the search runs: results and "no data" hidden, no
    current data, the telemetry request sent. *)
Lemma searchPage_fields (form : Criteria) (files : option File) (p : Page) :
  forall q,
    q = showLoading
          (resetUI (with_requests (requests p ++ [telemetryOf form files]) p)) ->
    resultsHidden q = true /\ currentData q = [] /\
    noDataHidden (noDataSection q) = true /\
    requests q = (requests p ++ [telemetryOf form files])%list /\
    toasts q = toasts p /\ resultsTableBody q = resultsTableBody p /\
    cachedFilePayload q = cachedFilePayload p /\
    sessionStorage q = sessionStorage p.
Proof. intros q ->. repeat split. Qed.

Ltac fields_by_cases :=
  repeat (match goal with
          | |- _ /\ _ => split
          | |- _ -> _ => intro
          end; try congruence);
  try reflexivity.

Lemma runSearch_fields (env : Env) (payload : Payload) (q : Page) :
  resultsHidden (snd (runSearch env payload q)) = resultsHidden q /\
  currentData (snd (runSearch env payload q)) = currentData q /\
  noDataSection (snd (runSearch env payload q)) = noDataSection q /\
  toasts (snd (runSearch env payload q)) = toasts q /\
  resultsTableBody (snd (runSearch env payload q)) = resultsTableBody q /\
  cachedFilePayload (snd (runSearch env payload q)) = cachedFilePayload q /\
  sessionStorage (snd (runSearch env payload q)) = sessionStorage q /\
  (goesRemote (file payload) = true ->
   runSearch env payload q = searchData env SHEET_WEBHOOK payload q /\
   requests (snd (runSearch env payload q))
   = (requests q ++ [JsonPost SHEET_WEBHOOK payload])%list) /\
  (goesRemote (file payload) = false ->
   requests (snd (runSearch env payload q)) = requests q /\
   exists f, file payload = Some f /\
             fst (runSearch env payload q)
             = option_map Some
                 (processLocalFile (XLSX_read env) (fileData f)
                    (criteria payload))).
Proof.
  unfold runSearch, searchData, goesRemote.
  destruct (file payload) as [f|].
  - destruct (truthyStr (fileData f)); [destruct (isExcelOrCsv f)|].
    + destruct (processLocalFile _ _ _) eqn:E; cbn; fields_by_cases;
        exists f; now rewrite E.
    + destruct (fetchJson env _ _); cbn; fields_by_cases.
    + destruct (fetchJson env _ _); cbn; fields_by_cases.
  - destruct (fetchJson env _ _); cbn; fields_by_cases.
Qed.

(** The fields of the page a started search leaves behind, gathered from the
    three lemmas above. *)
Lemma started_search_fields (env : Env) (form : Criteria)
      (files : option File) (p : Page) :
  searchStarts env form files p = true ->
  exists outcome q,
    handleSearch env form files p = settleSearch (outcome, q) /\
    resultsHidden q = true /\ currentData q = [] /\
    noDataHidden (noDataSection q) = true /\
    toasts q = toasts (pageAfterAttach env files p) /\
    resultsTableBody q = resultsTableBody p /\
    cachedFilePayload q = cachedFilePayload (pageAfterAttach env files p) /\
    sessionStorage q = sessionStorage (pageAfterAttach env files p) /\
    (goesRemote (attachment env files p) = true ->
     requests q
     = (requests p
          ++ [telemetryOf form files;
              JsonPost SHEET_WEBHOOK (mkPayload form (attachment env files p))])%list
     /\ outcome
        = fst (searchData env SHEET_WEBHOOK
                 (mkPayload form (attachment env files p)) q)) /\
    (goesRemote (attachment env files p) = false ->
     requests q = (requests p ++ [telemetryOf form files])%list /\
     exists f, attachment env files p = Some f /\
               outcome
               = option_map Some
                   (processLocalFile (XLSX_read env) (fileData f) form)).
Proof.
  intros Hs. rewrite (handleSearch_started _ _ _ _ Hs).
  set (p1 := pageAfterAttach env files p).
  set (q0 := showLoading
               (resetUI (with_requests (requests p1 ++ [telemetryOf form files]) p1))).
  set (payload := mkPayload form (attachment env files p)).
  destruct (searchPage_fields form files p1 q0 eq_refl)
    as [A1 [A2 [A3 [A4 [A5 [A6 [A7 A8]]]]]]].
  destruct (pageAfterAttach_fields env files p) as [B1 [_ [_ [B4 _]]]].
  fold p1 in B1, B4.
  destruct (runSearch_fields env payload q0)
    as [C1 [C2 [C3 [C4 [C5 [C6 [C7 [C8 C9]]]]]]]].
  exists (fst (runSearch env payload q0)), (snd (runSearch env payload q0)).
  rewrite <- surjective_pairing.
  split; [reflexivity|]. split; [congruence|]. split; [congruence|].
  split; [congruence|]. split; [congruence|]. split; [congruence|].
  split; [congruence|]. split; [congruence|]. split.
  - intros Hr. destruct (C8 Hr) as [E1 E2]. rewrite E2, A4, B1.
    rewrite <- app_assoc. split; [reflexivity|].
    rewrite E1. unfold searchData.
    now destruct (fetchJson env SHEET_WEBHOOK payload).
  - intros Hr. destruct (C9 Hr) as [E1 [f [Hf E2]]].
    rewrite E1, A4, B1. split; [reflexivity|]. now exists f.
Qed.

Lemma unstarted_search (env : Env) (form : Criteria) (files : option File)
      (p : Page) :
  searchStarts env form files p = false ->
  exists msg,
    handleSearch env form files p
    = showNotification msg "error" (pageAfterAttach env files p).
Proof.
  unfold searchStarts, handleSearch, pageAfterAttach, submitSearch.
  destruct files as [f|].
  - destruct (toBase64 env f) as [b|].
    + intros H. apply negb_false_iff in H. rewrite H. eexists. reflexivity.
    + intros _. eexists. reflexivity.
  - intros H. apply negb_false_iff in H. rewrite H. eexists. reflexivity.
Qed.

(** X10. A search never leaves the interface busy: once [handleSearch] has
    run a search, whatever its outcome, the search button is enabled again
    with its label and icon restored and the loading overlay is hidden; and
    a submission that starts no search leaves the button as it was.  The same
    holds after [handleRedrobSearch]. *)
Theorem busy_indicator_cleared (env : Env) (form : Criteria)
        (files : option File) (p : Page) :
  (searchStarts env form files p = true ->
   searchBtn (handleSearch env form files p) = idleSearchBtn /\
   loadingHidden (handleSearch env form files p) = true) /\
  (searchStarts env form files p = false ->
   searchBtn (handleSearch env form files p) = searchBtn p) /\
  searchBtn (handleRedrobSearch env form p) = idleSearchBtn /\
  loadingHidden (handleRedrobSearch env form p) = true.
Proof.
  split; [|split].
  - intros Hs.
    destruct (started_search_fields env form files p Hs) as [o [q [E _]]].
    rewrite E. destruct (settleSearch_fields o q) as [H1 [H2 _]]. now split.
  - intros Hs. destruct (unstarted_search env form files p Hs) as [msg E].
    rewrite E. cbn. apply pageAfterAttach_fields.
  - unfold handleRedrobSearch, searchData, showLoading.
    cbn [resultsHidden with_searchBtn with_noDataSection].
    destruct (fetchJson env _ _) as [| |[[|d data]|]];
      destruct (resultsHidden p); split; reflexivity.
Qed.

Lemma busy_indicator_cleared_witness :
  searchStarts janeEnv austinCriteria None idlePage = true /\
  disabled (searchBtn (handleSearch janeEnv austinCriteria None idlePage))
  = false.
Proof.
  split; [reflexivity|].
  destruct (busy_indicator_cleared janeEnv austinCriteria None idlePage)
    as [H _].
  destruct (H eq_refl) as [-> _]. reflexivity.
Defined.

(** The page a search leaves when it is local, or when the primary endpoint
    fails or finds nothing: a shown table holds the current data, a hidden
    one means there are none. *)
Lemma unrendered_remote_search (env : Env) (form : Criteria)
      (files : option File) (p : Page) :
  searchStarts env form files p = true ->
  rendersRemote env form (attachment env files p) = false ->
  (resultsHidden (handleSearch env form files p) = false /\
   noDataHidden (noDataSection (handleSearch env form files p)) = true /\
   currentData (handleSearch env form files p) <> [] /\
   resultsTableBody (handleSearch env form files p)
   = map renderRow (currentData (handleSearch env form files p)) /\
   goesRemote (attachment env files p) = false)
  \/
  (resultsHidden (handleSearch env form files p) = true /\
   currentData (handleSearch env form files p) = []).
Proof.
  intros Hs Hr.
  destruct (started_search_fields env form files p Hs)
    as [o [q [E [Q1 [Q2 [Q3 [_ [_ [_ [_ [Hrem _]]]]]]]]]]].
  rewrite E. destruct (settleSearch_fields o q) as [_ [_ [_ [_ [_ H]]]]].
  destruct o as [[[|d data]|]|].
  - right. destruct H as [H1 [H2 _]]. split; congruence.
  - left. destruct H as [H1 [H2 [H3 [H4 _]]]].
    rewrite H1, H2, H3, H4. repeat split; [exact Q3 | discriminate |].
    unfold rendersRemote in Hr.
    destruct (goesRemote (attachment env files p)); [|reflexivity].
    destruct (Hrem eq_refl) as [_ Ho]. unfold searchData in Ho.
    destruct (fetchJson env _ _) as [| |[[|d' data']|]]; cbn in Ho, Hr;
      congruence.
  - right. destruct H as [H1 [H2 _]]. split; congruence.
  - right. destruct H as [H1 [H2 _]]. split; congruence.
Qed.

(** X11. After a local search, and after a remote search in which the
    primary endpoint fails or answers with an empty array or null, the
    results and the "no data" section are never shown together.  Either the
    table is shown, which happens for a local search only, and then the
    current data are not empty, the table holds exactly their rendering and
    the "no data" section is hidden; or the table is hidden and the current
    data are empty. *)
Theorem results_match_current_data (env : Env) (form : Criteria)
        (files : option File) (p : Page) :
  searchStarts env form files p = true ->
  rendersRemote env form (attachment env files p) = false ->
  (resultsHidden (handleSearch env form files p) = false /\
   noDataHidden (noDataSection (handleSearch env form files p)) = true /\
   currentData (handleSearch env form files p) <> [] /\
   resultsTableBody (handleSearch env form files p)
   = map renderRow (currentData (handleSearch env form files p)) /\
   goesRemote (attachment env files p) = false)
  \/
  (resultsHidden (handleSearch env form files p) = true /\
   currentData (handleSearch env form files p) = []).
Proof. apply unrendered_remote_search. Qed.

Lemma results_match_current_data_witness :
  searchStarts janeEnv (mkCriteria "jane" "" "") (Some janeFile) idlePage = true /\
  rendersRemote janeEnv (mkCriteria "jane" "" "")
    (attachment janeEnv (Some janeFile) idlePage) = false /\
  resultsTableBody
    (handleSearch janeEnv (mkCriteria "jane" "" "") (Some janeFile) idlePage)
  = [["Jane Doe"; "Austin"; "Go"; "-"; "-"]].
Proof.
  split; [reflexivity|]. split; [reflexivity|].
  destruct (results_match_current_data janeEnv (mkCriteria "jane" "" "")
              (Some janeFile) idlePage eq_refl eq_refl)
    as [[_ [_ [_ [H _]]]] | [H _]].
  - rewrite H. reflexivity.
  - discriminate H.
Defined.

(** X12. When a local search, or a remote search in which the primary
    endpoint fails or answers with an empty array or null, ends with the
    table hidden, the three exports do nothing: no file is produced and the
    page is unchanged. *)
Theorem nothing_to_export_after_empty_search (env : Env) (form : Criteria)
        (files : option File) (p : Page) (iso : string) :
  searchStarts env form files p = true ->
  rendersRemote env form (attachment env files p) = false ->
  resultsHidden (handleSearch env form files p) = true ->
  downloadCSV iso (handleSearch env form files p)
  = handleSearch env form files p /\
  downloadExcel iso (handleSearch env form files p)
  = handleSearch env form files p /\
  downloadPDF iso (handleSearch env form files p)
  = handleSearch env form files p.
Proof.
  intros Hs Hr Hh.
  destruct (unrendered_remote_search env form files p Hs Hr)
    as [[H _] | [_ H]]; [congruence|].
  unfold downloadCSV, downloadExcel, downloadPDF. rewrite H. repeat split.
Qed.

Lemma nothing_to_export_after_empty_search_witness :
  searchStarts janeEnv austinCriteria None idlePage = true /\
  rendersRemote janeEnv austinCriteria (attachment janeEnv None idlePage)
  = false /\
  resultsHidden (handleSearch janeEnv austinCriteria None idlePage) = true /\
  downloads (downloadCSV isoNow (handleSearch janeEnv austinCriteria None idlePage))
  = [].
Proof.
  split; [reflexivity|]. split; [reflexivity|]. split; [reflexivity|].
  destruct (nothing_to_export_after_empty_search janeEnv austinCriteria
              None idlePage isoNow eq_refl eq_refl eq_refl) as [-> _].
  reflexivity.
Defined.

Lemma started_search_requests (env : Env) (form : Criteria)
      (files : option File) (p : Page) :
  searchStarts env form files p = true ->
  requests (handleSearch env form files p)
  = (requests p
       ++ TelemetryPost (name form) (location form) (technology form) files
          :: (if goesRemote (attachment env files p)
              then [JsonPost SHEET_WEBHOOK
                      (mkPayload form (attachment env files p))]
              else []))%list.
Proof.
  intros Hs.
  destruct (started_search_fields env form files p Hs)
    as [o [q [E [_ [_ [_ [_ [_ [_ [_ [Hr Hl]]]]]]]]]]].
  rewrite E. destruct (settleSearch_fields o q) as [_ [_ [-> _]]].
  destruct (goesRemote (attachment env files p)).
  - now destruct (Hr eq_refl) as [-> _].
  - now destruct (Hl eq_refl) as [-> _].
Qed.

(** X13. A search that starts sends exactly one telemetry request, with the
    three criteria and the file selected in the input (a cached file is not
    sent with it), and after it at most one other request: the payload to
    the primary endpoint when the search is remote, nothing when it is
    local.  Nothing goes to the secondary endpoint. *)
Theorem requests_of_a_search (env : Env) (form : Criteria)
        (files : option File) (p : Page) :
  searchStarts env form files p = true ->
  requests (handleSearch env form files p)
  = (requests p
       ++ TelemetryPost (name form) (location form) (technology form) files
          :: (if goesRemote (attachment env files p)
              then [JsonPost SHEET_WEBHOOK
                      (mkPayload form (attachment env files p))]
              else []))%list.
Proof. apply started_search_requests. Qed.

Lemma requests_of_a_search_witness :
  searchStarts janeEnv austinCriteria None
    (with_cachedFilePayload (Some brokenPayload) idlePage) = true /\
  requests (handleSearch janeEnv austinCriteria None
              (with_cachedFilePayload (Some brokenPayload) idlePage))
  = [TelemetryPost "" "austin" "" None].
Proof.
  split; [reflexivity|].
  apply (requests_of_a_search janeEnv austinCriteria None
           (with_cachedFilePayload (Some brokenPayload) idlePage)).
  reflexivity.
Defined.

(** X14. A submission that starts no search (the file cannot be read, or
    there is nothing to search for) sends no request and leaves the search
    button, the table, the current data and the visibility of the results
    untouched; it only adds an error notification. *)
Theorem rejected_submission_keeps_results (env : Env) (form : Criteria)
        (files : option File) (p : Page) :
  searchStarts env form files p = false ->
  requests (handleSearch env form files p) = requests p /\
  currentData (handleSearch env form files p) = currentData p /\
  resultsTableBody (handleSearch env form files p) = resultsTableBody p /\
  resultsHidden (handleSearch env form files p) = resultsHidden p /\
  downloads (handleSearch env form files p) = downloads p /\
  exists msg shown,
    toasts (handleSearch env form files p)
    = (shown ++ [(msg, "error")])%list.
Proof.
  intros Hs. destruct (unstarted_search env form files p Hs) as [msg E].
  rewrite E.
  destruct (pageAfterAttach_fields env files p) as [H1 [_ [H3 [H4 H5]]]].
  cbn. rewrite H1, H3, H4, H5. repeat split.
  - unfold pageAfterAttach, saveFileToStorage.
    destruct files as [f|]; [|reflexivity].
    destruct (toBase64 env f); [|reflexivity].
    now destruct (storageAccepts env _).
  - exists msg. eexists. reflexivity.
Qed.

Lemma rejected_submission_keeps_results_witness :
  searchStarts (mkEnv (fun _ => None) (fun _ => true) (fun _ => None)
                      (fun _ _ => FetchRejected))
    (mkCriteria "jane" "" "") (Some janeFile) idlePage = false /\
  requests
    (handleSearch (mkEnv (fun _ => None) (fun _ => true) (fun _ => None)
                         (fun _ _ => FetchRejected))
       (mkCriteria "jane" "" "") (Some janeFile) idlePage) = [].
Proof.
  split; [reflexivity|].
  apply (rejected_submission_keeps_results
           (mkEnv (fun _ => None) (fun _ => true) (fun _ => None)
                  (fun _ _ => FetchRejected))
           (mkCriteria "jane" "" "") (Some janeFile) idlePage).
  reflexivity.
Defined.

(** X15. The outcomes of a remote search that renders nothing.  When the
    primary endpoint answers with an empty array or null, the "no data"
    section is shown with its first wording and the Redrob button, and no
    notification is added.  When the call is rejected or the response is not
    ok, the error notification is added and neither the results nor the "no
    data" section is shown. *)
Theorem remote_search_outcomes (env : Env) (form : Criteria)
        (files : option File) (p : Page) :
  searchStarts env form files p = true ->
  goesRemote (attachment env files p) = true ->
  (nothingFound
     (fetchJson env SHEET_WEBHOOK (mkPayload form (attachment env files p)))
   = true ->
   noDataSection (handleSearch env form files p) = firstNoData /\
   resultsHidden (handleSearch env form files p) = true /\
   currentData (handleSearch env form files p) = [] /\
   toasts (handleSearch env form files p)
   = toasts (pageAfterAttach env files p)) /\
  (failed
     (fetchJson env SHEET_WEBHOOK (mkPayload form (attachment env files p)))
   = true ->
   toasts (handleSearch env form files p)
   = (toasts (pageAfterAttach env files p)
        ++ [("An error occurred while searching.", "error")])%list /\
   resultsHidden (handleSearch env form files p) = true /\
   currentData (handleSearch env form files p) = [] /\
   noDataHidden (noDataSection (handleSearch env form files p)) = true).
Proof.
  intros Hs Hg.
  destruct (started_search_fields env form files p Hs)
    as [o [q [E [Q1 [Q2 [Q3 [Q4 [_ [_ [_ [Hr _]]]]]]]]]]].
  destruct (Hr Hg) as [_ Ho]. rewrite E.
  destruct (settleSearch_fields o q) as [_ [_ [_ [_ [_ H]]]]].
  unfold searchData in Ho.
  destruct (fetchJson env _ _) as [| |[[|d data]|]]; cbn in Ho; subst o;
    cbn beta iota in H; cbn [nothingFound failed]; fields_by_cases;
    repeat match goal with
           | H : _ /\ _ |- _ => destruct H
           end; congruence.
Qed.

Lemma remote_search_outcomes_witness :
  searchStarts janeEnv austinCriteria None idlePage = true /\
  goesRemote (attachment janeEnv None idlePage) = true /\
  nothingFound
    (fetchJson janeEnv SHEET_WEBHOOK
       (mkPayload austinCriteria (attachment janeEnv None idlePage))) = true /\
  noDataSection (handleSearch janeEnv austinCriteria None idlePage)
  = firstNoData.
Proof.
  split; [reflexivity|]. split; [reflexivity|]. split; [reflexivity|].
  destruct (remote_search_outcomes janeEnv austinCriteria None idlePage
              eq_refl eq_refl) as [H _].
  exact (proj1 (H eq_refl)).
Defined.

(** X16. Whenever a search ends with the "no data" section shown, the
    section carries its first heading and text and offers the Redrob button
    again, whatever an earlier fallback search had written there. *)
Theorem no_data_section_reset (env : Env) (form : Criteria)
        (files : option File) (p : Page) :
  searchStarts env form files p = true ->
  noDataHidden (noDataSection (handleSearch env form files p)) = false ->
  noDataSection (handleSearch env form files p) = firstNoData.
Proof.
  intros Hs.
  destruct (started_search_fields env form files _ Hs)
    as [o [q [E [_ [_ [Q3 _]]]]]].
  rewrite E. destruct (settleSearch_fields o q) as [_ [_ [_ [_ [_ H]]]]].
  destruct o as [[[|d data]|]|];
    repeat match goal with
           | H : _ /\ _ |- _ => destruct H
           end; congruence.
Qed.

Lemma no_data_section_reset_witness :
  redrobSearchBtnHidden
    (noDataSection (handleRedrobSearch janeEnv austinCriteria idlePage)) = true /\
  noDataSection
    (handleSearch janeEnv austinCriteria None
       (handleRedrobSearch janeEnv austinCriteria idlePage))
  = firstNoData.
Proof.
  split; [reflexivity|].
  apply (no_data_section_reset janeEnv austinCriteria None
           (handleRedrobSearch janeEnv austinCriteria idlePage)); reflexivity.
Defined.

(** X17. When the call of the fallback search is rejected or its response
    is not ok, the "no data" section stays hidden, so the Redrob button is
    no longer offered; the current data, the table and the visibility of the
    results are untouched; and the notification added is the one asking to
    replace the webhook URL, since [REDROB_WEBHOOK] is still the
    placeholder. *)
Theorem fallback_search_outcomes (env : Env) (form : Criteria) (p : Page) :
  failed (fetchJson env REDROB_WEBHOOK (mkPayload form None)) = true ->
  noDataHidden (noDataSection (handleRedrobSearch env form p)) = true /\
  currentData (handleRedrobSearch env form p) = currentData p /\
  resultsTableBody (handleRedrobSearch env form p) = resultsTableBody p /\
  resultsHidden (handleRedrobSearch env form p) = resultsHidden p /\
  toasts (handleRedrobSearch env form p)
  = (toasts p
       ++ [("Error: Please replace Redrob Webhook URL in script.js.",
            "error")])%list.
Proof.
  unfold handleRedrobSearch, searchData, showLoading.
  cbn [resultsHidden with_searchBtn with_noDataSection].
  destruct (fetchJson env _ _) as [| |data]; cbn [failed];
    try discriminate; intros _;
    destruct (resultsHidden p) eqn:Hh; cbn; rewrite ?Hh; repeat split.
Qed.

Lemma fallback_search_outcomes_witness :
  failed (fetchJson (mkEnv (fun _ => None) (fun _ => true) (fun _ => None)
                           (fun _ _ => NotOk 404))
            REDROB_WEBHOOK (mkPayload austinCriteria None)) = true /\
  noDataHidden
    (noDataSection
       (handleRedrobSearch
          (mkEnv (fun _ => None) (fun _ => true) (fun _ => None)
                 (fun _ _ => NotOk 404))
          austinCriteria idlePage)) = true.
Proof.
  split; [reflexivity|].
  apply (fallback_search_outcomes
           (mkEnv (fun _ => None) (fun _ => true) (fun _ => None)
                  (fun _ _ => NotOk 404))
           austinCriteria idlePage).
  reflexivity.
Defined.

(** X25. When an endpoint answers with a non-empty array of records, the
    records are rendered: they become the current data, the table holds one
    row per record, the results are shown and the "no data" section is
    hidden.  This holds for the primary endpoint in [handleSearch] and for
    the secondary one in [handleRedrobSearch]. *)
Theorem records_are_rendered (env : Env) (form : Criteria)
        (files : option File) (p : Page) (d : JSObject)
        (data : list JSObject) :
  (searchStarts env form files p = true ->
   goesRemote (attachment env files p) = true ->
   fetchJson env SHEET_WEBHOOK (mkPayload form (attachment env files p))
   = Json (Some (d :: data)) ->
   currentData (handleSearch env form files p) = d :: data /\
   resultsTableBody (handleSearch env form files p)
   = map renderRow (d :: data) /\
   resultsHidden (handleSearch env form files p) = false /\
   noDataHidden (noDataSection (handleSearch env form files p)) = true) /\
  (fetchJson env REDROB_WEBHOOK (mkPayload form None) = Json (Some (d :: data)) ->
   currentData (handleRedrobSearch env form p) = d :: data /\
   resultsTableBody (handleRedrobSearch env form p)
   = map renderRow (d :: data) /\
   resultsHidden (handleRedrobSearch env form p) = false /\
   noDataHidden (noDataSection (handleRedrobSearch env form p)) = true).
Proof.
  split.
  - intros Hs Hg Hf.
    destruct (started_search_fields env form files p Hs)
      as [o [q [E [Q1 [Q2 [Q3 [Q4 [_ [_ [_ [Hr _]]]]]]]]]]].
    destruct (Hr Hg) as [_ Ho]. rewrite E.
    destruct (settleSearch_fields o q) as [_ [_ [_ [_ [_ H]]]]].
    unfold searchData in Ho. rewrite Hf in Ho. cbn in Ho. subst o.
    cbn beta iota in H. destruct H as [H1 [H2 [H3 [H4 _]]]].
    repeat split; congruence.
  - unfold handleRedrobSearch, searchData, showLoading.
    cbn [resultsHidden with_searchBtn with_noDataSection].
    intros ->. destruct (resultsHidden p); repeat split.
Qed.

Lemma records_are_rendered_witness :
  fetchJson (mkEnv (fun _ => None) (fun _ => true) (fun _ => None)
                   (fun _ _ => Json (Some [extraA])))
    REDROB_WEBHOOK (mkPayload austinCriteria None)
  = Json (Some [extraA]) /\
  resultsTableBody
    (handleRedrobSearch
       (mkEnv (fun _ => None) (fun _ => true) (fun _ => None)
              (fun _ _ => Json (Some [extraA])))
       austinCriteria idlePage)
  = [["Ann"; "-"; "-"; "-"; "-"]].
Proof.
  split; [reflexivity|].
  destruct (records_are_rendered
              (mkEnv (fun _ => None) (fun _ => true) (fun _ => None)
                     (fun _ _ => Json (Some [extraA])))
              austinCriteria None idlePage extraA []) as [_ H].
  destruct (H eq_refl) as [_ [-> _]]. reflexivity.
Defined.

(** ** The attached file and its persistence *)

Lemma settleSearch_cache (o : option (option (list JSObject))) (q : Page) :
  cachedFilePayload (settleSearch (o, q)) = cachedFilePayload q /\
  sessionStorage (settleSearch (o, q)) = sessionStorage q.
Proof. destruct o as [[[|d data]|]|]; split; reflexivity. Qed.

Lemma handleSearch_cache (env : Env) (form : Criteria) (files : option File)
      (p : Page) :
  cachedFilePayload (handleSearch env form files p)
  = cachedFilePayload (pageAfterAttach env files p) /\
  sessionStorage (handleSearch env form files p)
  = sessionStorage (pageAfterAttach env files p).
Proof.
  destruct (searchStarts env form files p) eqn:Hs.
  - destruct (started_search_fields env form files p Hs)
      as [o [q [E [_ [_ [_ [_ [_ [Q7 [Q8 _]]]]]]]]]].
    rewrite E. destruct (settleSearch_cache o q) as [-> ->]. now split.
  - destruct (unstarted_search env form files p Hs) as [msg ->].
    split; reflexivity.
Qed.

(** X18. A submission with a newly selected file that can be read replaces
    the cached payload and the stored one by that file exactly when the
    session storage accepts it; when the storage refuses, both keep what they
    held and the warning is the first notification added. *)
Theorem new_file_cached_when_storage_accepts (env : Env) (form : Criteria)
        (f : File) (base64 : string) (p : Page) :
  toBase64 env f = Some base64 ->
  (storageAccepts env (mkFilePayload base64 (file_name f) (file_type f)) = true ->
   cachedFilePayload (handleSearch env form (Some f) p)
   = Some (mkFilePayload base64 (file_name f) (file_type f)) /\
   sessionStorage (handleSearch env form (Some f) p)
   = Some (mkFilePayload base64 (file_name f) (file_type f))) /\
  (storageAccepts env (mkFilePayload base64 (file_name f) (file_type f)) = false ->
   cachedFilePayload (handleSearch env form (Some f) p) = cachedFilePayload p /\
   sessionStorage (handleSearch env form (Some f) p) = sessionStorage p /\
   exists later,
     toasts (handleSearch env form (Some f) p)
     = (toasts p
          ++ ("File too large to save for refresh, but search will work.",
              "error") :: later)%list).
Proof.
  intros Hb.
  destruct (handleSearch_cache env form (Some f) p) as [Hc Hs].
  unfold pageAfterAttach, saveFileToStorage in Hc, Hs. rewrite Hb in Hc, Hs.
  split; intros Ha; rewrite Ha in Hc, Hs.
  - now split.
  - split; [exact Hc|]. split; [exact Hs|].
    destruct (searchStarts env form (Some f) p) eqn:Hst.
    + destruct (started_search_fields env form (Some f) p Hst)
        as [o [q [E [_ [_ [_ [Q4 _]]]]]]].
      rewrite E. destruct (settleSearch_fields o q) as [_ [_ [_ [_ [_ H]]]]].
      unfold pageAfterAttach, saveFileToStorage in Q4. rewrite Hb, Ha in Q4.
      cbn in Q4.
      destruct o as [[[|d data]|]|];
        repeat match goal with
               | H : _ /\ _ |- _ => destruct H
               end;
        match goal with
        | H : toasts (settleSearch _) = _ |- _ => rewrite H, Q4
        end;
        try (exists []; reflexivity).
      eexists. rewrite <- app_assoc. reflexivity.
    + destruct (unstarted_search env form (Some f) p Hst) as [msg ->].
      unfold pageAfterAttach, saveFileToStorage. rewrite Hb, Ha. cbn.
      eexists. rewrite <- app_assoc. reflexivity.
Qed.

Lemma new_file_cached_when_storage_accepts_witness :
  toBase64 janeEnv janeFile = Some janeDataUri /\
  cachedFilePayload (handleSearch janeEnv austinCriteria (Some janeFile) idlePage)
  = Some (mkFilePayload janeDataUri "leads.csv" "text/csv").
Proof.
  split; [reflexivity|].
  destruct (new_file_cached_when_storage_accepts janeEnv austinCriteria
              janeFile janeDataUri idlePage eq_refl) as [H _].
  destruct (H eq_refl) as [-> _]. reflexivity.
Defined.

(** X19. Save then load: once [saveFileToStorage] has stored a payload,
    [loadFileFromStorage] on a page whose cache is empty (as after a reload)
    puts that payload back in the cache, shows its file name with the remove
    button, and the next submission without a selected file searches with
    it. *)
Theorem stored_file_restored_on_load (env : Env) (fp : FilePayload) (p : Page)
        (w : FileWidget) :
  storageAccepts env fp = true ->
  cachedFilePayload
    (page (loadFileFromStorage
             (mkSession (with_cachedFilePayload None (saveFileToStorage env fp p))
                        w None)))
  = Some fp /\
  widget (loadFileFromStorage
            (mkSession (with_cachedFilePayload None (saveFileToStorage env fp p))
                       w None))
  = mkFileWidget "File Selected" (fileName fp) false true false true false /\
  attachment env None
    (page (loadFileFromStorage
             (mkSession (with_cachedFilePayload None (saveFileToStorage env fp p))
                        w None)))
  = Some fp.
Proof.
  intros Ha. unfold saveFileToStorage, loadFileFromStorage. rewrite Ha.
  repeat split.
Qed.

Lemma stored_file_restored_on_load_witness :
  storageAccepts janeEnv pdfPayload = true /\
  cachedFilePayload
    (page (loadFileFromStorage
             (mkSession
                (with_cachedFilePayload None
                   (saveFileToStorage janeEnv pdfPayload idlePage))
                (widget savedSession) None)))
  = Some pdfPayload.
Proof.
  split; [reflexivity|].
  apply (stored_file_restored_on_load janeEnv pdfPayload idlePage
           (widget savedSession)).
  reflexivity.
Defined.

(** X20. After [removeFile] the file is gone for good: the input, the cache
    and the session storage are empty, loading from the storage restores
    nothing, a submission without criteria is rejected, and a submission with
    a name criterion posts the criteria alone to the primary endpoint. *)
Theorem removed_file_is_gone (env : Env) (form : Criteria) (s : Session) :
  fileInput (removeFile s) = None /\
  cachedFilePayload (page (removeFile s)) = None /\
  sessionStorage (page (removeFile s)) = None /\
  loadFileFromStorage (removeFile s) = removeFile s /\
  attachment env (fileInput (removeFile s)) (page (removeFile s)) = None /\
  (name form = "" -> location form = "" -> technology form = "" ->
   requests (page (onSubmit env form (removeFile s))) = requests (page s)) /\
  (name form <> "" ->
   requests (page (onSubmit env form (removeFile s)))
   = (requests (page s)
        ++ [TelemetryPost (name form) (location form) (technology form) None;
            JsonPost SHEET_WEBHOOK (mkPayload form None)])%list).
Proof.
  repeat split.
  - intros Hn Hl Ht. cbn [onSubmit page fileInput removeFile].
    unfold handleSearch, submitSearch, nothingToSearch. cbn.
    now rewrite Hn, Hl, Ht.
  - intros Hn. cbn [onSubmit page fileInput removeFile].
    rewrite started_search_requests.
    + reflexivity.
    + unfold searchStarts, nothingToSearch. cbn.
      apply truthyStr_true in Hn. now rewrite Hn.
Qed.

Lemma removed_file_is_gone_witness :
  name (mkCriteria "jane" "" "") <> "" /\
  requests
    (page (onSubmit janeEnv (mkCriteria "jane" "" "")
             (removeFile (loadFileFromStorage savedSession))))
  = [TelemetryPost "jane" "" "" None;
     JsonPost SHEET_WEBHOOK (mkPayload (mkCriteria "jane" "" "") None)].
Proof.
  split; [discriminate|].
  apply (removed_file_is_gone janeEnv (mkCriteria "jane" "" "")
           (loadFileFromStorage savedSession)).
  discriminate.
Defined.

(** X21. Once a file is selected and can be read, the upload control shows
    its name and the next submission searches with it, whether or not the
    session storage accepted the payload. *)
Theorem selected_file_is_searched (env : Env) (s : Session) (f : File)
        (base64 : string) :
  fileInput s = Some f ->
  toBase64 env f = Some base64 ->
  widget (handleFileSelect env s)
  = mkFileWidget "File Selected" (file_name f) false true false true false /\
  attachment env (fileInput (handleFileSelect env s))
    (page (handleFileSelect env s))
  = Some (mkFilePayload base64 (file_name f) (file_type f)) /\
  requests (page (handleFileSelect env s)) = requests (page s).
Proof.
  intros Hf Hb. unfold handleFileSelect. rewrite Hf, Hb.
  cbn [widget fileInput page attachment]. rewrite Hb.
  repeat split. unfold saveFileToStorage.
  now destruct (storageAccepts env _).
Qed.

Lemma selected_file_is_searched_witness :
  fileInput (mkSession idlePage (widget savedSession) (Some janeFile))
  = Some janeFile /\
  toBase64 janeEnv janeFile = Some janeDataUri /\
  fileNameDisplay
    (widget (handleFileSelect janeEnv
               (mkSession idlePage (widget savedSession) (Some janeFile))))
  = "leads.csv".
Proof.
  split; [reflexivity|]. split; [reflexivity|].
  destruct (selected_file_is_searched janeEnv
              (mkSession idlePage (widget savedSession) (Some janeFile))
              janeFile janeDataUri eq_refl eq_refl) as [-> _].
  reflexivity.
Defined.

(** X22. Dropping a file on the drop zone has the same effect as choosing
    it in the file input; a drop without a file only removes the highlight
    of the zone. *)
Theorem drop_is_selection (env : Env) (f : File) (s : Session) :
  onDrop env (Some f) s
  = handleFileSelect env (mkSession (page s) (widget s) (Some f)) /\
  onDrop env None s = onDragLeave s.
Proof.
  split; [|reflexivity].
  unfold onDrop, handleFileSelect. cbn [fileInput page widget].
  now destruct (toBase64 env f).
Qed.

(** X23. The outcomes of a local search are shown like those of a remote
    one: a non-empty result is rendered and becomes the current data; an
    empty one shows the "no data" section with its first wording; a payload
    the parser cannot read adds the same error notification as a failed
    remote call and shows neither results nor the "no data" section. *)
Theorem local_search_outcomes (env : Env) (form : Criteria)
        (files : option File) (p : Page) (f : FilePayload) :
  searchStarts env form files p = true ->
  attachment env files p = Some f ->
  goesRemote (Some f) = false ->
  match processLocalFile (XLSX_read env) (fileData f) form with
  | Some (d :: data) =>
      currentData (handleSearch env form files p) = d :: data /\
      resultsHidden (handleSearch env form files p) = false /\
      resultsTableBody (handleSearch env form files p)
      = map renderRow (d :: data)
  | Some [] =>
      noDataSection (handleSearch env form files p) = firstNoData /\
      resultsHidden (handleSearch env form files p) = true
  | None =>
      toasts (handleSearch env form files p)
      = (toasts (pageAfterAttach env files p)
           ++ [("An error occurred while searching.", "error")])%list /\
      resultsHidden (handleSearch env form files p) = true /\
      noDataHidden (noDataSection (handleSearch env form files p)) = true
  end.
Proof.
  intros Hs Ha Hg.
  destruct (started_search_fields env form files p Hs)
    as [o [q [E [Q1 [Q2 [Q3 [Q4 [_ [_ [_ [_ Hl]]]]]]]]]]].
  rewrite Ha in Hl. destruct (Hl Hg) as [_ [f' [[= <-] Ho]]]. rewrite E.
  destruct (settleSearch_fields o q) as [_ [_ [_ [_ [_ H]]]]].
  destruct (processLocalFile _ _ _) as [[|d data]|]; cbn in Ho; subst o;
    cbn beta iota in H; fields_by_cases;
    repeat match goal with
           | H : _ /\ _ |- _ => destruct H
           end; congruence.
Qed.

Lemma local_search_outcomes_witness :
  searchStarts janeEnv (mkCriteria "" "" "go") (Some janeFile) idlePage = true /\
  goesRemote (Some (mkFilePayload janeDataUri "leads.csv" "text/csv")) = false /\
  currentData
    (handleSearch janeEnv (mkCriteria "" "" "go") (Some janeFile) idlePage)
  = [mapRow janeRow].
Proof.
  split; [reflexivity|]. split; [reflexivity|].
  pose proof (local_search_outcomes janeEnv (mkCriteria "" "" "go")
                (Some janeFile) idlePage
                (mkFilePayload janeDataUri "leads.csv" "text/csv")
                eq_refl eq_refl eq_refl) as H.
  assert (E : processLocalFile (XLSX_read janeEnv)
                (fileData (mkFilePayload janeDataUri "leads.csv" "text/csv"))
                (mkCriteria "" "" "go")
              = Some [mapRow janeRow]) by reflexivity.
  rewrite E in H. exact (proj1 H).
Defined.

(** ** The delimited-text export, continued *)

Lemma parseCSV_csvString_any (data : list JSObject) :
  parseCSV (csvString data)
  = Some (fields :: map (fun row => map (exportText row) fields) data).
Proof.
  destruct data as [|d data]; [reflexivity | apply parseCSV_csvString].
Qed.

(** X24. The delimited-text export loses nothing but the difference between
    falsy values: two result sets are exported to the same text only if they
    have the same number of records and the same exported text in every
    field of every record. *)
Theorem csv_export_injective (data data' : list JSObject) :
  csvString data = csvString data' ->
  map (fun row => map (exportText row) fields) data
  = map (fun row => map (exportText row) fields) data' /\
  List.length data = List.length data'.
Proof.
  intros H.
  pose proof (parseCSV_csvString_any data) as P.
  pose proof (parseCSV_csvString_any data') as P'.
  rewrite H in P. rewrite P in P'. injection P' as E.
  split; [exact E|].
  apply (f_equal (@List.length _)) in E. now rewrite !length_map in E.
Qed.

Lemma csv_export_injective_witness :
  csvString [[("name", JStr ""); ("id", JNum 1)]] = csvString [[("name", JNull)]] /\
  map (fun row => map (exportText row) fields) [[("name", JStr ""); ("id", JNum 1)]]
  = map (fun row => map (exportText row) fields) [[("name", JNull)]].
Proof.
  split; [reflexivity|].
  apply (csv_export_injective [[("name", JStr ""); ("id", JNum 1)]]
           [[("name", JNull)]]).
  reflexivity.
Defined.
